(** * opengl-triangles: the program of [src/main.cpp] as a shallow embedding

    The program is one translation unit: [initWindow], the body of [main]
    (buffer upload, shader build, render loop, shutdown), [processInput]
    and [framebuffer_size_callback].  Everything it does is a call into
    GLFW, glad, OpenGL, [std::cout] or [exit].  The embedding keeps those
    calls as a trace, threads the little state the libraries keep for the
    program (the close flag of the window, the installed callback, the two
    file-scope arrays) and takes every answer of the outside world from an
    environment record. *)

From Stdlib Require Import List ZArith QArith String Ascii Bool Lia.
Import ListNotations.

Local Open Scope Z_scope.

(** ** Data *)

(** [float] literals are kept as the rational their source text denotes;
    the program performs no floating point arithmetic on them. *)
Definition float := Q.

(** [sizeof(float)] and [sizeof(unsigned int)]: both 32 bit types on every
    platform OpenGL defines [GL_FLOAT] and [GL_UNSIGNED_INT] for. *)
Definition sizeof_float : Z := 4.
Definition sizeof_unsigned_int : Z := 4.

(** [sizeof] of an array of [n] elements of size [sz]. *)
Definition sizeof_array {A : Type} (sz : Z) (a : list A) : Z :=
  sz * Z.of_nat (List.length a).

Definition nl : string := String (ascii_of_nat 10) EmptyString.

Definition vertexShaderSource : string :=
  ("#version 330 core" ++ nl ++
  "layout (location = 0) in vec3 aPos;" ++ nl ++
  "void main()" ++ nl ++
  "{" ++ nl ++
  "   gl_Position = vec4(aPos.x, aPos.y, aPos.z, 1.0);" ++ nl ++
  "}")%string.

Definition fragmentShaderSource : string :=
  ("#version 330 core" ++ nl ++
  "out vec4 FragColor;" ++ nl ++
  "void main()" ++ nl ++
  "{" ++ nl ++
  "   FragColor = vec4(1.0f, 0.0f, 0.0f, 1.0f);" ++ nl ++
  "}")%string.

(** Two triangles side by side. *)
Definition vertices : list float :=
  [ -(1#2);  (1#2); 0;
    -(1#1); -(1#2); 0;
      0;    -(1#2); 0;

     (1#2);  (1#2); 0;
      0;    -(1#2); 0;
      1;    -(1#2); 0 ]%Q.

Definition indices : list Z :=
  [ 0; 1; 2;
    3; 4; 5 ].

(** Symbolic constants of [glad/glad.h] and [GLFW/glfw3.h] the program
    names.  The headers are not part of the repository; the constants the
    program only passes on stay symbolic. *)
Inductive GLenum : Type :=
  | GL_FRONT_AND_BACK | GL_LINE
  | GL_ARRAY_BUFFER | GL_ELEMENT_ARRAY_BUFFER | GL_STATIC_DRAW
  | GL_VERTEX_SHADER | GL_FRAGMENT_SHADER
  | GL_COMPILE_STATUS | GL_LINK_STATUS
  | GL_FLOAT | GL_UNSIGNED_INT | GL_FALSE
  | GL_TRIANGLES | GL_COLOR_BUFFER_BIT.

Inductive GLFWhint : Type :=
  | GLFW_CONTEXT_VERSION_MAJOR | GLFW_CONTEXT_VERSION_MINOR
  | GLFW_OPENGL_PROFILE.

Inductive GLFWhintValue : Type :=
  | hint_int (v : Z)
  | GLFW_OPENGL_CORE_PROFILE.

(** The two GLFW constants the program compares against or passes as a
    key, with their values in [GLFW/glfw3.h]. *)
Definition GLFW_PRESS : Z := 1.
Definition GLFW_RELEASE : Z := 0.
Definition GLFW_KEY_ESCAPE : Z := 256.

(** A [GLFWwindow*]; [NULL] is 0. *)
Definition window := Z.
Definition NULL : window := 0.

(** The functions of the program that are handed to a library as a
    callback. *)
Inductive callback : Type :=
  | cb_framebuffer_size_callback.

(** What [glBufferData] is given to copy. *)
Inductive buffer_data : Type :=
  | float_data (d : list float)
  | uint_data (d : list Z).

(** ** The calls the program can make

    One constructor per library entry point, with the arguments that are
    passed; arguments the program always passes as [NULL] (monitor and
    share of [glfwCreateWindow], the length arrays of [glShaderSource] and
    of the info-log getters) and the pointers results are written through
    are left out.  The alphabet is the API around the program: it also lists the
    entry points for releasing buffers, vertex arrays, programs and
    windows, for rewriting a buffer and for opening a file or reading the
    process environment, which [main.cpp] never names. *)
Inductive call : Type :=
  (* GLFW *)
  | glfwInit
  | glfwWindowHint (hint : GLFWhint) (value : GLFWhintValue)
  | glfwCreateWindow (width height : Z) (title : string)
  | glfwTerminate
  | glfwMakeContextCurrent (w : window)
  | glfwSetFramebufferSizeCallback (w : window) (cb : callback)
  | glfwWindowShouldClose (w : window)
  | glfwSetWindowShouldClose (w : window) (value : Z)
  | glfwGetKey (w : window) (key : Z)
  | glfwSwapBuffers (w : window)
  | glfwPollEvents
  | glfwDestroyWindow (w : window)
  (* glad *)
  | gladLoadGLLoader
  (* OpenGL *)
  | glViewport (x y width height : Z)
  | glPolygonMode (face mode : GLenum)
  | glGenVertexArrays (n : Z)
  | glBindVertexArray (array : Z)
  | glGenBuffers (n : Z)
  | glBindBuffer (target : GLenum) (buffer : Z)
  | glBufferData (target : GLenum) (size : Z) (data : buffer_data)
                 (usage : GLenum)
  | glBufferSubData (target : GLenum) (offset size : Z) (data : buffer_data)
  | glCreateShader (type : GLenum)
  | glShaderSource (shader : Z) (count : Z) (source : string)
  | glCompileShader (shader : Z)
  | glGetShaderiv (shader : Z) (pname : GLenum)
  | glGetShaderInfoLog (shader : Z) (maxLength : Z)
  | glCreateProgram
  | glAttachShader (program shader : Z)
  | glLinkProgram (program : Z)
  | glGetProgramiv (program : Z) (pname : GLenum)
  | glGetProgramInfoLog (program : Z) (maxLength : Z)
  | glVertexAttribPointer (index size : Z) (type normalized : GLenum)
                          (stride pointer : Z)
  | glEnableVertexAttribArray (index : Z)
  | glDeleteShader (shader : Z)
  | glDeleteBuffers (n : Z) (buffer : Z)
  | glDeleteVertexArrays (n : Z) (array : Z)
  | glDeleteProgram (program : Z)
  | glClearColor (r g b a : float)
  | glClear (mask : GLenum)
  | glUseProgram (program : Z)
  | glDrawElements (mode : GLenum) (count : Z) (type : GLenum) (offset : Z)
  (* the C++ and C runtime *)
  | cout (text : string)
  | file_open (path : string)
  | read_environment (name : string).

(** ** The outside world

    Every value a library hands back to the program. *)

(** What happens to the window while [glfwPollEvents] runs in one frame. *)
Record events : Type := {
  close_requested : bool;
  resized : option (Z * Z)     (* new framebuffer (width, height) *)
}.

Record env : Type := {
  created_window : window;         (* result of glfwCreateWindow *)
  glad_loaded : Z;                 (* result of gladLoadGLLoader *)
  gen_VAO : Z;                     (* name written by glGenVertexArrays *)
  gen_VBO : Z;                     (* name written by the 1st glGenBuffers *)
  gen_EBO : Z;                     (* name written by the 2nd glGenBuffers *)
  new_vertexShader : Z;            (* glCreateShader(GL_VERTEX_SHADER) *)
  new_fragmentShader : Z;          (* glCreateShader(GL_FRAGMENT_SHADER) *)
  new_program : Z;                 (* glCreateProgram *)
  vertex_compile_status : Z;       (* written by glGetShaderiv *)
  link_status : Z;                 (* written by glGetProgramiv *)
  vertex_info_log : string;        (* written by glGetShaderInfoLog *)
  program_info_log : string;       (* written by glGetProgramInfoLog *)
  key_escape : nat -> Z;           (* glfwGetKey in frame k *)
  frame_events : nat -> events     (* glfwPollEvents in frame k *)
}.

(** ** State the program runs on *)

Record world : Type := {
  close_flag : Z;                   (* the window's should-close flag *)
  fb_callback : option (window * callback);
                                    (* installed framebuffer-size callback *)
  tick : nat;                       (* frames whose events were polled *)
  mem_vertices : list float;        (* the file-scope array [vertices] *)
  mem_indices : list Z              (* the file-scope array [indices] *)
}.

Definition initial_world : world :=
  {| close_flag := 0; fb_callback := None; tick := 0;
     mem_vertices := vertices; mem_indices := indices |}.

Definition set_close_flag (v : Z) (w : world) : world :=
  {| close_flag := v; fb_callback := fb_callback w; tick := tick w;
     mem_vertices := mem_vertices w; mem_indices := mem_indices w |}.

Definition set_fb_callback (win : window) (cb : callback) (w : world) : world :=
  {| close_flag := close_flag w; fb_callback := Some (win, cb); tick := tick w;
     mem_vertices := mem_vertices w; mem_indices := mem_indices w |}.

Definition next_tick (w : world) : world :=
  {| close_flag := close_flag w; fb_callback := fb_callback w;
     tick := S (tick w);
     mem_vertices := mem_vertices w; mem_indices := mem_indices w |}.

(** ** The monad: calls made so far, and how the computation stands *)

Inductive outcome (A : Type) : Type :=
  | Ret (a : A) (w : world)     (* returned [a] *)
  | Exit (status : Z)           (* [exit(status)] was called *)
  | Running.                    (* the loop had not ended when fuel ran out *)

Arguments Ret {A} a w.
Arguments Exit {A} status.
Arguments Running {A}.

Definition prog (A : Type) : Type := world -> list call * outcome A.

Definition ret {A : Type} (a : A) : prog A := fun w => ([], Ret a w).

Definition bind {A B : Type} (p : prog A) (k : A -> prog B) : prog B :=
  fun w =>
    match p w with
    | (t, Ret a w') => let (t', o) := k a w' in (t ++ t', o)
    | (t, Exit s) => (t, Exit s)
    | (t, Running) => (t, Running)
    end.

Notation "x <- p ;; k" := (bind p (fun x => k))
  (at level 61, p at next level, right associativity).
Notation "p ;; k" := (bind p (fun _ => k))
  (at level 61, right associativity).
Notation "' pat <- p ;; k" := (bind p (fun x => match x with pat => k end))
  (at level 61, pat pattern, p at next level, right associativity).

(** A call whose result the program ignores, or that has none. *)
Definition emit (c : call) : prog unit := fun w => ([c], Ret tt w).

(** A call that hands back [a]. *)
Definition ask {A : Type} (c : call) (a : A) : prog A :=
  fun w => ([c], Ret a w).

Definition exit {A : Type} (status : Z) : prog A := fun _ => ([], Exit status).

Definition out_of_fuel {A : Type} : prog A := fun _ => ([], Running).

Definition trace {A : Type} (r : list call * outcome A) : list call := fst r.
Definition result {A : Type} (r : list call * outcome A) : outcome A := snd r.

Definition get {A : Type} (f : world -> A) : prog A := fun w => ([], Ret (f w) w).

Definition modify (f : world -> world) : prog unit :=
  fun w => ([], Ret tt (f w)).

(** ** The program *)

Section Program.

Variable E : env.

(** *** [framebuffer_size_callback], lines 144-147

    The parameters are in the order of the definition at line 144:
    [(window, height, width)]. *)
Definition framebuffer_size_callback (window : window) (height width : Z)
  : prog unit :=
  emit (glViewport 0 0 width height).

(** *** What the libraries do with the state of the program *)

(** GLFW invokes a framebuffer-size callback as
    [callback(window, width, height)]: positionally, new width first. *)
Definition invoke_framebuffer_size (cb : callback) (win : window)
    (fb_width fb_height : Z) : prog unit :=
  match cb with
  | cb_framebuffer_size_callback =>
      framebuffer_size_callback win fb_width fb_height
  end.

Definition lib_glfwSetFramebufferSizeCallback (win : window) (cb : callback)
  : prog unit :=
  emit (glfwSetFramebufferSizeCallback win cb) ;;
  modify (set_fb_callback win cb).

Definition lib_glfwWindowShouldClose (win : window) : prog Z :=
  emit (glfwWindowShouldClose win) ;;
  get close_flag.

Definition lib_glfwSetWindowShouldClose (win : window) (value : Z)
  : prog unit :=
  emit (glfwSetWindowShouldClose win value) ;;
  modify (set_close_flag value).

Definition lib_glfwGetKey (win : window) (key : Z) : prog Z :=
  emit (glfwGetKey win key) ;;
  k <- get tick ;;
  ret (key_escape E k).

(** [glfwPollEvents] processes what happened to the window since the last
    call: a close request raises the close flag (GLFW never lowers it on
    its own), a resize runs the installed framebuffer-size callback. *)
Definition lib_glfwPollEvents : prog unit :=
  emit glfwPollEvents ;;
  k <- get tick ;;
  modify next_tick ;;
  (if close_requested (frame_events E k)
   then modify (set_close_flag 1) else ret tt) ;;
  cb <- get fb_callback ;;
  match resized (frame_events E k), cb with
  | Some (fb_width, fb_height), Some (win, f) =>
      invoke_framebuffer_size f win fb_width fb_height
  | _, _ => ret tt
  end.

(** *** [processInput], lines 149-156 *)
Definition processInput (window : window) : prog unit :=
  k <- lib_glfwGetKey window GLFW_KEY_ESCAPE ;;
  if k =? GLFW_PRESS
  then lib_glfwSetWindowShouldClose window 1
  else ret tt.

(** *** [initWindow], lines 158-186 *)
Definition initWindow : prog window :=
  emit glfwInit ;;
  emit (glfwWindowHint GLFW_CONTEXT_VERSION_MAJOR (hint_int 3)) ;;
  emit (glfwWindowHint GLFW_CONTEXT_VERSION_MINOR (hint_int 3)) ;;
  emit (glfwWindowHint GLFW_OPENGL_PROFILE GLFW_OPENGL_CORE_PROFILE) ;;
  window <- ask (glfwCreateWindow 800 600 "LearnOpenGL") (created_window E) ;;
  (if window =? NULL
   then emit (cout ("Failed to create window" ++ nl)) ;;
        emit glfwTerminate ;;
        exit 0
   else ret tt) ;;
  emit (glfwMakeContextCurrent window) ;;
  loaded <- ask gladLoadGLLoader (glad_loaded E) ;;
  (if loaded =? 0
   then emit (cout ("Failed to initialize GLAD" ++ nl)) ;;
        exit 0
   else ret tt) ;;
  lib_glfwSetFramebufferSizeCallback window cb_framebuffer_size_callback ;;
  emit (glViewport 0 0 800 600) ;;
  ret window.

(** *** [main], lines 59-70: vertex array, vertex buffer, element buffer *)
Definition upload_geometry : prog (Z * Z * Z) :=
  VAO <- ask (glGenVertexArrays 1) (gen_VAO E) ;;
  emit (glBindVertexArray VAO) ;;
  VBO <- ask (glGenBuffers 1) (gen_VBO E) ;;
  emit (glBindBuffer GL_ARRAY_BUFFER VBO) ;;
  vs <- get mem_vertices ;;
  emit (glBufferData GL_ARRAY_BUFFER (sizeof_array sizeof_float vertices)
                     (float_data vs) GL_STATIC_DRAW) ;;
  EBO <- ask (glGenBuffers 1) (gen_EBO E) ;;
  emit (glBindBuffer GL_ELEMENT_ARRAY_BUFFER EBO) ;;
  ix <- get mem_indices ;;
  emit (glBufferData GL_ELEMENT_ARRAY_BUFFER
                     (sizeof_array sizeof_unsigned_int indices)
                     (uint_data ix) GL_STATIC_DRAW) ;;
  ret (VAO, VBO, EBO).

(** *** [main], lines 74-102: the two shaders and the program *)
Definition build_shader_program : prog (Z * Z * Z) :=
  vertexShader <- ask (glCreateShader GL_VERTEX_SHADER) (new_vertexShader E) ;;
  emit (glShaderSource vertexShader 1 vertexShaderSource) ;;
  emit (glCompileShader vertexShader) ;;
  success <- ask (glGetShaderiv vertexShader GL_COMPILE_STATUS)
                 (vertex_compile_status E) ;;
  (if success =? 0
   then infoLog <- ask (glGetShaderInfoLog vertexShader 512)
                       (vertex_info_log E) ;;
        emit (cout ("ERROR::SHADER::VERTEX::COMPILATION_FAILED" ++ nl
                    ++ infoLog ++ nl))
   else ret tt) ;;
  fragmentShader <- ask (glCreateShader GL_FRAGMENT_SHADER)
                        (new_fragmentShader E) ;;
  emit (glShaderSource fragmentShader 1 fragmentShaderSource) ;;
  emit (glCompileShader fragmentShader) ;;
  shaderProgram <- ask glCreateProgram (new_program E) ;;
  emit (glAttachShader shaderProgram vertexShader) ;;
  emit (glAttachShader shaderProgram fragmentShader) ;;
  emit (glLinkProgram shaderProgram) ;;
  success <- ask (glGetProgramiv shaderProgram GL_LINK_STATUS)
                 (link_status E) ;;
  (if success =? 0
   then infoLog <- ask (glGetProgramInfoLog shaderProgram 512)
                       (program_info_log E) ;;
        ret tt
   else ret tt) ;;
  ret (vertexShader, fragmentShader, shaderProgram).

(** *** [main], lines 115-135: the body of the render loop *)
Definition frame (window : window) (shaderProgram VAO : Z) : prog unit :=
  processInput window ;;
  emit (glClearColor 0 0 (7#10) 1)%Q ;;
  emit (glClear GL_COLOR_BUFFER_BIT) ;;
  emit (glUseProgram shaderProgram) ;;
  emit (glBindVertexArray VAO) ;;
  emit (glDrawElements GL_TRIANGLES 6 GL_UNSIGNED_INT 0) ;;
  emit (glBindVertexArray 0) ;;
  emit (glfwSwapBuffers window) ;;
  lib_glfwPollEvents.

(** *** [main], line 112: [while (!glfwWindowShouldClose(window))]

    [fuel] bounds the number of times the condition is evaluated. *)
Fixpoint render_loop (window : window) (shaderProgram VAO : Z) (fuel : nat)
  : prog unit :=
  match fuel with
  | O => out_of_fuel
  | S fuel' =>
      closing <- lib_glfwWindowShouldClose window ;;
      if closing =? 0
      then frame window shaderProgram VAO ;;
           render_loop window shaderProgram VAO fuel'
      else ret tt
  end.

(** *** [main], lines 48-141 *)
Definition main (fuel : nat) : prog Z :=
  window <- initWindow ;;
  emit (glPolygonMode GL_FRONT_AND_BACK GL_LINE) ;;
  '(VAO, VBO, EBO) <- upload_geometry ;;
  '(vertexShader, fragmentShader, shaderProgram) <- build_shader_program ;;
  emit (glVertexAttribPointer 0 3 GL_FLOAT GL_FALSE (3 * sizeof_float) 0) ;;
  emit (glEnableVertexAttribArray 0) ;;
  emit (glDeleteShader vertexShader) ;;
  emit (glDeleteShader fragmentShader) ;;
  render_loop window shaderProgram VAO fuel ;;
  emit glfwTerminate ;;
  ret 0.

End Program.

(** The process: [main] started in the initial state.  The exit status is
    the value [main] returns or the argument of [exit]. *)
Definition run (E : env) (fuel : nat) : list call * outcome Z :=
  main E fuel initial_world.

Definition exit_status (o : outcome Z) : option Z :=
  match o with
  | Ret s _ => Some s
  | Exit s => Some s
  | Running => None
  end.

(** The part of [main] before the loop, lines 51-110, as one computation
    that hands the loop its three arguments.  [main_startup] below shows
    that [main] is [startup], then the loop, then the shutdown. *)
Definition startup (E : env) : prog (window * Z * Z) :=
  window <- initWindow E ;;
  emit (glPolygonMode GL_FRONT_AND_BACK GL_LINE) ;;
  '(VAO, VBO, EBO) <- upload_geometry E ;;
  '(vertexShader, fragmentShader, shaderProgram) <- build_shader_program E ;;
  emit (glVertexAttribPointer 0 3 GL_FLOAT GL_FALSE (3 * sizeof_float) 0) ;;
  emit (glEnableVertexAttribArray 0) ;;
  emit (glDeleteShader vertexShader) ;;
  emit (glDeleteShader fragmentShader) ;;
  ret (window, shaderProgram, VAO).

(** ** Reading traces *)

(** Calls that create, fill, configure or release a GPU object: a buffer,
    a vertex array, a shader or a program. *)
Definition mutates_resource (c : call) : bool :=
  match c with
  | glGenVertexArrays _ | glGenBuffers _ | glBindBuffer _ _
  | glBufferData _ _ _ _ | glBufferSubData _ _ _ _
  | glCreateShader _ | glShaderSource _ _ _ | glCompileShader _
  | glCreateProgram | glAttachShader _ _ | glLinkProgram _
  | glVertexAttribPointer _ _ _ _ _ _ | glEnableVertexAttribArray _
  | glDeleteShader _ | glDeleteBuffers _ _ | glDeleteVertexArrays _ _
  | glDeleteProgram _ => true
  | _ => false
  end.

(** Calls that bring one of the four long-lived GPU objects into being. *)
Definition creates_resource (c : call) : bool :=
  match c with
  | glGenVertexArrays _ | glGenBuffers _ | glCreateProgram => true
  | _ => false
  end.

Definition is_upload (c : call) : bool :=
  match c with
  | glBufferData _ _ _ _ | glBufferSubData _ _ _ _ => true
  | _ => false
  end.

(** Calls that release something: a GPU object, a window, or the whole
    windowing library with its windows and contexts. *)
Definition is_release (c : call) : bool :=
  match c with
  | glDeleteShader _ | glDeleteBuffers _ _ | glDeleteVertexArrays _ _
  | glDeleteProgram _ | glfwDestroyWindow _ | glfwTerminate => true
  | _ => false
  end.

Definition is_draw (c : call) : bool :=
  match c with
  | glDrawElements _ _ _ _ => true
  | _ => false
  end.

Definition is_print (c : call) : bool :=
  match c with
  | cout _ => true
  | _ => false
  end.

Definition is_create_window (c : call) : bool :=
  match c with
  | glfwCreateWindow _ _ _ => true
  | _ => false
  end.

(** Calls that read configuration or touch a file. *)
Definition is_file_or_config (c : call) : bool :=
  match c with
  | file_open _ | read_environment _ => true
  | _ => false
  end.

Definition is_viewport (c : call) : bool :=
  match c with
  | glViewport _ _ _ _ => true
  | _ => false
  end.

Definition draws (t : list call) : nat := List.length (filter is_draw t).

(** One frame is over when escape is seen pressed by [processInput] or the
    user asks for the window to be closed. *)
Definition stops (E : env) (k : nat) : bool :=
  (key_escape E k =? GLFW_PRESS) || close_requested (frame_events E k).

(** *** The shape of the render loop's trace *)

(** What [processInput] does. *)
Inductive input_step (win : window) : list call -> Prop :=
  | input_idle :
      input_step win [glfwGetKey win GLFW_KEY_ESCAPE]
  | input_escape :
      input_step win [glfwGetKey win GLFW_KEY_ESCAPE;
                      glfwSetWindowShouldClose win 1].

(** The rendering steps of one iteration, up to the buffer swap. *)
Definition render_steps (win : window) (shaderProgram VAO : Z) : list call :=
  [ glClearColor 0 0 (7#10) 1;
    glClear GL_COLOR_BUFFER_BIT;
    glUseProgram shaderProgram;
    glBindVertexArray VAO;
    glDrawElements GL_TRIANGLES 6 GL_UNSIGNED_INT 0;
    glBindVertexArray 0;
    glfwSwapBuffers win ]%Q.

(** Event processing that closes an iteration: [glfwPollEvents] and the
    viewport calls of the callbacks it runs. *)
Inductive events_step : list call -> Prop :=
  | events_intro (cbs : list call) :
      Forall (fun c => is_viewport c = true) cbs ->
      events_step (glfwPollEvents :: cbs).

Inductive iteration (win : window) (shaderProgram VAO : Z)
  : list call -> Prop :=
  | iteration_intro (inp evs : list call) :
      input_step win inp ->
      events_step evs ->
      iteration win shaderProgram VAO
                (inp ++ render_steps win shaderProgram VAO ++ evs).

Inductive loop_trace (win : window) (shaderProgram VAO : Z)
  : list call -> Prop :=
  | loop_pending :
      loop_trace win shaderProgram VAO []
  | loop_exit :
      loop_trace win shaderProgram VAO [glfwWindowShouldClose win]
  | loop_iterate (it rest : list call) :
      iteration win shaderProgram VAO it ->
      loop_trace win shaderProgram VAO rest ->
      loop_trace win shaderProgram VAO
                 (glfwWindowShouldClose win :: it ++ rest).

(** [always P p]: every call [p] makes, from any state, satisfies [P]. *)
Definition always {A : Type} (P : call -> Prop) (p : prog A) : Prop :=
  forall w, Forall P (trace (p w)).

(** *** One iteration, spelled out

    The calls and the state one run of [frame] leaves, as functions of the
    state it starts in; [frame_eq] proves them equal to what [frame]
    computes. *)
Definition input_calls (E : env) (win : window) (k : nat) : list call :=
  glfwGetKey win GLFW_KEY_ESCAPE ::
  (if key_escape E k =? GLFW_PRESS
   then [glfwSetWindowShouldClose win 1] else []).

Definition event_calls (E : env) (w : world) : list call :=
  glfwPollEvents ::
  match resized (frame_events E (tick w)), fb_callback w with
  | Some (fb_width, fb_height), Some (win, f) =>
      trace (invoke_framebuffer_size f win fb_width fb_height w)
  | _, _ => []
  end.

Definition frame_calls (E : env) (win : window) (shaderProgram VAO : Z)
    (w : world) : list call :=
  input_calls E win (tick w) ++ render_steps win shaderProgram VAO
  ++ event_calls E w.

Definition frame_world (E : env) (w : world) : world :=
  {| close_flag := if stops E (tick w) then 1 else close_flag w;
     fb_callback := fb_callback w;
     tick := S (tick w);
     mem_vertices := mem_vertices w;
     mem_indices := mem_indices w |}.

(** Calls the render loop and the callbacks can make. *)
Definition loop_call (c : call) : bool :=
  match c with
  | glfwWindowShouldClose _ | glfwGetKey _ _ | glfwSetWindowShouldClose _ _
  | glClearColor _ _ _ _ | glClear _ | glUseProgram _ | glBindVertexArray _
  | glDrawElements _ _ _ _ | glfwSwapBuffers _ | glfwPollEvents
  | glViewport _ _ _ _ => true
  | _ => false
  end.

(** A call that names a program or a vertex array names the given ones
    (or unbinds the vertex array). *)
Definition uses_handles (shaderProgram VAO : Z) (c : call) : bool :=
  match c with
  | glUseProgram p => p =? shaderProgram
  | glBindVertexArray a => (a =? VAO) || (a =? 0)
  | _ => true
  end.

(** ** Sample environments *)

Definition quiet : events := {| close_requested := false; resized := None |}.

(** Everything succeeds; the framebuffer is resized to 1024 x 768 during
    the first frame and escape is down in the second. *)
Definition env_escape : env :=
  {| created_window := 77; glad_loaded := 1;
     gen_VAO := 1; gen_VBO := 1; gen_EBO := 2;
     new_vertexShader := 1; new_fragmentShader := 2; new_program := 3;
     vertex_compile_status := 1; link_status := 1;
     vertex_info_log := ""; program_info_log := "";
     key_escape := fun k => if Nat.eqb k 1 then GLFW_PRESS else GLFW_RELEASE;
     frame_events := fun k =>
       if Nat.eqb k 0
       then {| close_requested := false; resized := Some (1024, 768) |}
       else quiet |}.

(** The vertex shader compiles, the program does not link (as when the
    fragment shader is rejected); the user closes the window in the first
    frame. *)
Definition env_link_fails : env :=
  {| created_window := 77; glad_loaded := 1;
     gen_VAO := 1; gen_VBO := 1; gen_EBO := 2;
     new_vertexShader := 1; new_fragmentShader := 2; new_program := 3;
     vertex_compile_status := 1; link_status := 0;
     vertex_info_log := ""; program_info_log := "error: linking failed";
     key_escape := fun _ => GLFW_RELEASE;
     frame_events := fun _ => {| close_requested := true; resized := None |} |}.

(** [glfwCreateWindow] returns [NULL]. *)
Definition env_no_window : env :=
  {| created_window := NULL; glad_loaded := 1;
     gen_VAO := 1; gen_VBO := 1; gen_EBO := 2;
     new_vertexShader := 1; new_fragmentShader := 2; new_program := 3;
     vertex_compile_status := 1; link_status := 1;
     vertex_info_log := ""; program_info_log := "";
     key_escape := fun _ => GLFW_RELEASE;
     frame_events := fun _ => quiet |}.

(** [gladLoadGLLoader] returns 0. *)
Definition env_no_loader : env :=
  {| created_window := 77; glad_loaded := 0;
     gen_VAO := 1; gen_VBO := 1; gen_EBO := 2;
     new_vertexShader := 1; new_fragmentShader := 2; new_program := 3;
     vertex_compile_status := 1; link_status := 1;
     vertex_info_log := ""; program_info_log := "";
     key_escape := fun _ => GLFW_RELEASE;
     frame_events := fun _ => quiet |}.

(** Everything succeeds and nothing ever happens to the window. *)
Definition env_quiet : env :=
  {| created_window := 77; glad_loaded := 1;
     gen_VAO := 1; gen_VBO := 1; gen_EBO := 2;
     new_vertexShader := 1; new_fragmentShader := 2; new_program := 3;
     vertex_compile_status := 1; link_status := 1;
     vertex_info_log := ""; program_info_log := "";
     key_escape := fun _ => GLFW_RELEASE;
     frame_events := fun _ => quiet |}.

(** ** Further readings of a trace *)

(** The OpenGL entry points, which exist only once the loader has run. *)
Definition is_gl_call (c : call) : bool :=
  match c with
  | glViewport _ _ _ _ | glPolygonMode _ _ | glGenVertexArrays _
  | glBindVertexArray _ | glGenBuffers _ | glBindBuffer _ _
  | glBufferData _ _ _ _ | glBufferSubData _ _ _ _ | glCreateShader _
  | glShaderSource _ _ _ | glCompileShader _ | glGetShaderiv _ _
  | glGetShaderInfoLog _ _ | glCreateProgram | glAttachShader _ _
  | glLinkProgram _ | glGetProgramiv _ _ | glGetProgramInfoLog _ _
  | glVertexAttribPointer _ _ _ _ _ _ | glEnableVertexAttribArray _
  | glDeleteShader _ | glDeleteBuffers _ _ | glDeleteVertexArrays _ _
  | glDeleteProgram _ | glClearColor _ _ _ _ | glClear _ | glUseProgram _
  | glDrawElements _ _ _ _ => true
  | _ => false
  end.

Definition is_terminate (c : call) : bool :=
  match c with
  | glfwTerminate => true
  | _ => false
  end.

(** Fetching an info log, or printing. *)
Definition is_log_call (c : call) : bool :=
  match c with
  | glGetShaderInfoLog _ _ | glGetProgramInfoLog _ _ | cout _ => true
  | _ => false
  end.

(** The [GLFWwindow*] a call is given, if it takes one. *)
Definition window_arg (c : call) : option window :=
  match c with
  | glfwMakeContextCurrent w | glfwSetFramebufferSizeCallback w _
  | glfwWindowShouldClose w | glfwSetWindowShouldClose w _
  | glfwGetKey w _ | glfwSwapBuffers w | glfwDestroyWindow w => Some w
  | _ => None
  end.

(** The viewport call a resize in frame [k] leads to. *)
Definition resize_calls (E : env) (k : nat) : list call :=
  match resized (frame_events E k) with
  | Some (fb_width, fb_height) => [glViewport 0 0 fb_height fb_width]
  | None => []
  end.

(** [E] with other answers about the shaders: compile status, link status
    and the two info logs. *)
Definition with_shader_status (E : env) (compiled linked : Z)
    (vertex_log program_log : string) : env :=
  {| created_window := created_window E; glad_loaded := glad_loaded E;
     gen_VAO := gen_VAO E; gen_VBO := gen_VBO E; gen_EBO := gen_EBO E;
     new_vertexShader := new_vertexShader E;
     new_fragmentShader := new_fragmentShader E;
     new_program := new_program E;
     vertex_compile_status := compiled; link_status := linked;
     vertex_info_log := vertex_log; program_info_log := program_log;
     key_escape := key_escape E; frame_events := frame_events E |}.

(** ** The OpenGL state the calls of the program act on

    What the OpenGL 3.3 core specification says the calls the program
    makes do to the context: the vertex array binding, the array buffer
    binding, what each vertex array object records (its element buffer and
    its attribute pointers, each with the array buffer bound when it was
    set), the data store of each buffer, which programs are linked, the
    program in use and the polygon mode.  Name 0 is no object: 0 bound
    means nothing is bound, and a call that needs a bound object then
    raises an error and leaves the state as it is.  So does
    [glUseProgram] on a program that is not linked.  Whether
    [glLinkProgram] succeeds is the environment's answer, the status
    [glGetProgramiv] reports.  A name other than 0 given to a bind call is
    taken to be one the context generated, as every name the program binds
    is.  Entry points the program never calls are not interpreted. *)

Record attrib_pointer : Type := {
  attrib_buffer : Z;
  attrib_size : Z;
  attrib_type : GLenum;
  attrib_stride : Z;
  attrib_offset : Z
}.

Record vertex_array : Type := {
  element_buffer : Z;
  attrib : Z -> option attrib_pointer;
  attrib_enabled : Z -> bool
}.

Record gl_state : Type := {
  bound_vertex_array : Z;
  bound_array_buffer : Z;
  vertex_arrays : Z -> vertex_array;
  buffer_store : Z -> option buffer_data;
  program_linked : Z -> bool;
  current_program : Z;
  polygon_mode : option (GLenum * GLenum)
}.

Definition gl_initial : gl_state :=
  {| bound_vertex_array := 0;
     bound_array_buffer := 0;
     vertex_arrays := fun _ =>
       {| element_buffer := 0; attrib := fun _ => None;
          attrib_enabled := fun _ => false |};
     buffer_store := fun _ => None;
     program_linked := fun _ => false;
     current_program := 0;
     polygon_mode := None |}.

Definition update {A : Type} (f : Z -> A) (k : Z) (a : A) : Z -> A :=
  fun x => if x =? k then a else f x.

(** The vertex array object that is bound. *)
Definition bound_vao (s : gl_state) : vertex_array :=
  vertex_arrays s (bound_vertex_array s).

Definition set_bound_vertex_array (a : Z) (s : gl_state) : gl_state :=
  {| bound_vertex_array := a;
     bound_array_buffer := bound_array_buffer s;
     vertex_arrays := vertex_arrays s;
     buffer_store := buffer_store s;
     program_linked := program_linked s;
     current_program := current_program s;
     polygon_mode := polygon_mode s |}.

Definition set_bound_array_buffer (b : Z) (s : gl_state) : gl_state :=
  {| bound_vertex_array := bound_vertex_array s;
     bound_array_buffer := b;
     vertex_arrays := vertex_arrays s;
     buffer_store := buffer_store s;
     program_linked := program_linked s;
     current_program := current_program s;
     polygon_mode := polygon_mode s |}.

Definition set_bound_vao (v : vertex_array) (s : gl_state) : gl_state :=
  {| bound_vertex_array := bound_vertex_array s;
     bound_array_buffer := bound_array_buffer s;
     vertex_arrays := update (vertex_arrays s) (bound_vertex_array s) v;
     buffer_store := buffer_store s;
     program_linked := program_linked s;
     current_program := current_program s;
     polygon_mode := polygon_mode s |}.

Definition set_buffer_store (b : Z) (d : buffer_data) (s : gl_state)
  : gl_state :=
  {| bound_vertex_array := bound_vertex_array s;
     bound_array_buffer := bound_array_buffer s;
     vertex_arrays := vertex_arrays s;
     buffer_store := update (buffer_store s) b (Some d);
     program_linked := program_linked s;
     current_program := current_program s;
     polygon_mode := polygon_mode s |}.

Definition set_program_linked (p : Z) (linked : bool) (s : gl_state)
  : gl_state :=
  {| bound_vertex_array := bound_vertex_array s;
     bound_array_buffer := bound_array_buffer s;
     vertex_arrays := vertex_arrays s;
     buffer_store := buffer_store s;
     program_linked := update (program_linked s) p linked;
     current_program := current_program s;
     polygon_mode := polygon_mode s |}.

Definition set_current_program (p : Z) (s : gl_state) : gl_state :=
  {| bound_vertex_array := bound_vertex_array s;
     bound_array_buffer := bound_array_buffer s;
     vertex_arrays := vertex_arrays s;
     buffer_store := buffer_store s;
     program_linked := program_linked s;
     current_program := p;
     polygon_mode := polygon_mode s |}.

Definition set_polygon_mode (face mode : GLenum) (s : gl_state) : gl_state :=
  {| bound_vertex_array := bound_vertex_array s;
     bound_array_buffer := bound_array_buffer s;
     vertex_arrays := vertex_arrays s;
     buffer_store := buffer_store s;
     program_linked := program_linked s;
     current_program := current_program s;
     polygon_mode := Some (face, mode) |}.

(** Index below [GL_MAX_VERTEX_ATTRIBS] (at least 16), 1 to 4 components,
    stride not negative. *)
Definition valid_attrib (index size stride : Z) : bool :=
  (0 <=? index) && (index <? 16) && (1 <=? size) && (size <=? 4)
  && (0 <=? stride).

Definition gl_step (E : env) (c : call) (s : gl_state) : gl_state :=
  match c with
  | glBindVertexArray a => set_bound_vertex_array a s
  | glBindBuffer GL_ARRAY_BUFFER b => set_bound_array_buffer b s
  | glBindBuffer GL_ELEMENT_ARRAY_BUFFER b =>
      if bound_vertex_array s =? 0 then s
      else set_bound_vao
             {| element_buffer := b;
                attrib := attrib (bound_vao s);
                attrib_enabled := attrib_enabled (bound_vao s) |} s
  | glBufferData GL_ARRAY_BUFFER size d _ =>
      if (bound_array_buffer s =? 0) || (size <? 0) then s
      else set_buffer_store (bound_array_buffer s) d s
  | glBufferData GL_ELEMENT_ARRAY_BUFFER size d _ =>
      if (bound_vertex_array s =? 0)
         || (element_buffer (bound_vao s) =? 0) || (size <? 0)
      then s
      else set_buffer_store (element_buffer (bound_vao s)) d s
  | glVertexAttribPointer i size type _ stride pointer =>
      if (bound_vertex_array s =? 0)
         || negb (valid_attrib i size stride)
         || ((bound_array_buffer s =? 0) && negb (pointer =? 0))
      then s
      else set_bound_vao
             {| element_buffer := element_buffer (bound_vao s);
                attrib := update (attrib (bound_vao s)) i
                            (Some {| attrib_buffer := bound_array_buffer s;
                                     attrib_size := size;
                                     attrib_type := type;
                                     attrib_stride := stride;
                                     attrib_offset := pointer |});
                attrib_enabled := attrib_enabled (bound_vao s) |} s
  | glEnableVertexAttribArray i =>
      if (bound_vertex_array s =? 0) || (i <? 0) || (16 <=? i) then s
      else set_bound_vao
             {| element_buffer := element_buffer (bound_vao s);
                attrib := attrib (bound_vao s);
                attrib_enabled :=
                  update (attrib_enabled (bound_vao s)) i true |} s
  | glLinkProgram p =>
      if p =? 0 then s
      else set_program_linked p (negb (link_status E =? 0)) s
  | glUseProgram p =>
      if p =? 0 then set_current_program 0 s
      else if program_linked s p then set_current_program p s
      else s
  | glPolygonMode GL_FRONT_AND_BACK GL_LINE =>
      set_polygon_mode GL_FRONT_AND_BACK GL_LINE s
  | _ => s
  end.

(** The state after the calls of [t], made in state [s]. *)
Definition gl_run (E : env) (t : list call) (s : gl_state) : gl_state :=
  fold_left (fun s c => gl_step E c s) t s.

(** The states in which the calls of [t] that satisfy [P] are made. *)
Fixpoint states_before (E : env) (P : call -> bool) (t : list call)
    (s : gl_state) : list gl_state :=
  match t with
  | [] => []
  | c :: t' =>
      (if P c then [s] else []) ++ states_before E P t' (gl_step E c s)
  end.

(** What startup leaves recorded for the vertex array, the buffers and
    the rasteriser. *)
Definition geometry_ready (E : env) (s : gl_state) : Prop :=
  element_buffer (vertex_arrays s (gen_VAO E)) = gen_EBO E
  /\ attrib (vertex_arrays s (gen_VAO E)) 0
     = Some {| attrib_buffer := gen_VBO E; attrib_size := 3;
               attrib_type := GL_FLOAT; attrib_stride := 12;
               attrib_offset := 0 |}
  /\ attrib_enabled (vertex_arrays s (gen_VAO E)) 0 = true
  /\ buffer_store s (gen_VBO E) = Some (float_data vertices)
  /\ buffer_store s (gen_EBO E) = Some (uint_data indices)
  /\ polygon_mode s = Some (GL_FRONT_AND_BACK, GL_LINE).

(** The program a draw call of the run finds in use: the program of
    startup if it linked, none if it did not. *)
Definition program_at_draw (E : env) : Z :=
  if link_status E =? 0 then 0 else new_program E.

(** The state a draw call of the run is issued in: the vertex array of
    startup is bound and set up; the program of startup is in use if it
    linked, and no program is in use if it did not. *)
Definition draw_ready (E : env) (s : gl_state) : Prop :=
  bound_vertex_array s = gen_VAO E
  /\ current_program s = program_at_draw E
  /\ geometry_ready E s.

(** What holds of the state between the iterations of the loop. *)
Definition loop_ready (E : env) (s : gl_state) : Prop :=
  geometry_ready E s
  /\ program_linked s (new_program E) = negb (link_status E =? 0)
  /\ ((link_status E =? 0) = true -> current_program s = 0).

(** ** Lemmas on the monad *)

Section MonadFacts.

Context {A B : Type}.

Lemma bind_ret_eq (p : prog A) (k : A -> prog B) w t a w' :
  p w = (t, Ret a w') ->
  bind p k w = (t ++ trace (k a w'), result (k a w')).
Proof.
  intros H. unfold bind. rewrite H. destruct (k a w'); reflexivity.
Qed.

Lemma bind_exit_eq (p : prog A) (k : A -> prog B) w t s :
  p w = (t, Exit s) -> bind p k w = (t, Exit s).
Proof. intros H. unfold bind. now rewrite H. Qed.

Lemma bind_running_eq (p : prog A) (k : A -> prog B) w t :
  p w = (t, Running) -> bind p k w = (t, Running).
Proof. intros H. unfold bind. now rewrite H. Qed.

Lemma always_bind (P : call -> Prop) (p : prog A) (k : A -> prog B) :
  always P p -> (forall a, always P (k a)) -> always P (bind p k).
Proof.
  intros Hp Hk w. specialize (Hp w). unfold bind.
  destruct (p w) as [t [a w'| s |]]; simpl in *; auto.
  specialize (Hk a w'). destruct (k a w') as [t' o]. simpl in *.
  apply Forall_app; split; assumption.
Qed.

End MonadFacts.

Lemma always_ret {A : Type} (P : call -> Prop) (a : A) : always P (ret a).
Proof. intros w. constructor. Qed.

Lemma always_emit (P : call -> Prop) (c : call) : P c -> always P (emit c).
Proof. intros H w. simpl. auto. Qed.

Lemma always_ask {A : Type} (P : call -> Prop) (c : call) (a : A) :
  P c -> always P (ask c a).
Proof. intros H w. simpl. auto. Qed.

Lemma always_exit {A : Type} (P : call -> Prop) (s : Z) :
  always P (@exit A s).
Proof. intros w. constructor. Qed.

Lemma always_out_of_fuel {A : Type} (P : call -> Prop) :
  always P (@out_of_fuel A).
Proof. intros w. constructor. Qed.

Lemma always_get {A : Type} (P : call -> Prop) (f : world -> A) :
  always P (get f).
Proof. intros w. constructor. Qed.

Lemma always_modify (P : call -> Prop) (f : world -> world) :
  always P (modify f).
Proof. intros w. constructor. Qed.

Lemma always_if {A : Type} (P : call -> Prop) (b : bool) (p q : prog A) :
  always P p -> always P q -> always P (if b then p else q).
Proof. destruct b; auto. Qed.

Create HintDb trace.
#[local] Hint Resolve always_ret always_emit always_ask always_exit
  always_out_of_fuel always_get always_modify always_if : trace.

(** Splits a sequence of binds and closes the leaves with the database. *)
Ltac always_step :=
  repeat (first
    [ apply always_bind; [ | intros ? ]
    | apply always_if
    | progress auto with trace
    | match goal with
      | |- always _ (match ?x with _ => _ end) => destruct x
      end ]).

(** ** The render loop *)

Section Loop.

Variable E : env.
Variables (win : window) (shaderProgram VAO : Z).

Lemma frame_eq (w : world) :
  frame E win shaderProgram VAO w
  = (frame_calls E win shaderProgram VAO w, Ret tt (frame_world E w)).
Proof.
  destruct w as [cf cb k mv mi].
  unfold frame, frame_calls, frame_world, input_calls, event_calls, stops,
    processInput, lib_glfwGetKey, lib_glfwSetWindowShouldClose,
    lib_glfwPollEvents, bind, emit, get, modify, ret.
  cbn.
  destruct (key_escape E k =? GLFW_PRESS); cbn;
    destruct (frame_events E k) as [cr [[fw fh]|]]; cbn;
    destruct cr; cbn; destruct cb as [[cw []]|]; reflexivity.
Qed.

Lemma render_loop_closed (fuel : nat) (w : world) :
  close_flag w <> 0 ->
  render_loop E win shaderProgram VAO (S fuel) w
  = ([glfwWindowShouldClose win], Ret tt w).
Proof.
  intros H. cbn. apply Z.eqb_neq in H. rewrite H. reflexivity.
Qed.

Lemma render_loop_open (fuel : nat) (w : world) :
  close_flag w = 0 ->
  render_loop E win shaderProgram VAO (S fuel) w
  = (glfwWindowShouldClose win ::
       frame_calls E win shaderProgram VAO w
       ++ trace (render_loop E win shaderProgram VAO fuel (frame_world E w)),
     result (render_loop E win shaderProgram VAO fuel (frame_world E w))).
Proof.
  intros H.
  change (render_loop E win shaderProgram VAO (S fuel) w)
    with ((closing <- lib_glfwWindowShouldClose win ;;
           if closing =? 0
           then frame E win shaderProgram VAO ;;
                render_loop E win shaderProgram VAO fuel
           else ret tt) w).
  unfold lib_glfwWindowShouldClose.
  unfold bind at 1 2. cbn. rewrite H. cbn.
  rewrite (bind_ret_eq _ _ _ _ _ _ (frame_eq w)). reflexivity.
Qed.

Lemma input_calls_step (k : nat) : input_step win (input_calls E win k).
Proof.
  unfold input_calls. destruct (_ =? _); constructor.
Qed.

Lemma event_calls_step (w : world) : events_step (event_calls E w).
Proof.
  unfold event_calls. constructor.
  destruct (resized _) as [[fw fh]|]; [|constructor].
  destruct (fb_callback w) as [[cw []]|]; repeat constructor.
Qed.

Lemma frame_calls_iteration (w : world) :
  iteration win shaderProgram VAO (frame_calls E win shaderProgram VAO w).
Proof.
  constructor; [apply input_calls_step | apply event_calls_step].
Qed.

Lemma iteration_draws (it : list call) :
  iteration win shaderProgram VAO it -> draws it = 1%nat.
Proof.
  intros [inp evs Hi He]. unfold draws.
  rewrite !filter_app, !length_app.
  assert (filter is_draw inp = []) as -> by (destruct Hi; reflexivity).
  destruct He as [cbs Hc]. cbn.
  assert (filter is_draw cbs = []) as ->; [|reflexivity].
  induction Hc as [|c l Hc _ IH]; [reflexivity|].
  cbn. rewrite IH. destruct c; try discriminate; reflexivity.
Qed.

Lemma frame_calls_draws (w : world) :
  draws (frame_calls E win shaderProgram VAO w) = 1%nat.
Proof. apply iteration_draws, frame_calls_iteration. Qed.

Lemma draws_app (t u : list call) : draws (t ++ u) = (draws t + draws u)%nat.
Proof. unfold draws. now rewrite filter_app, length_app. Qed.

End Loop.

Section LoopRuns.

Variable E : env.
Variables (win : window) (shaderProgram VAO : Z).

Local Abbreviation loop := (render_loop E win shaderProgram VAO).

Lemma render_loop_shape (fuel : nat) (w : world) :
  loop_trace win shaderProgram VAO (trace (loop fuel w)).
Proof.
  revert w. induction fuel as [|fuel IH]; intros w.
  - constructor.
  - destruct (Z.eq_dec (close_flag w) 0) as [H|H].
    + rewrite (render_loop_open _ _ _ _ _ _ H). cbn [trace fst].
      constructor; [apply frame_calls_iteration | apply IH].
    + rewrite (render_loop_closed _ _ _ _ _ _ H). constructor.
Qed.

(** While nothing stops it, the loop runs one frame per unit of fuel. *)
Lemma render_loop_runs (k : nat) : forall w,
  close_flag w = 0 ->
  (forall i, (i < k)%nat -> stops E (tick w + i) = false) ->
  exists pre w',
    draws pre = k /\ close_flag w' = 0 /\ tick w' = (tick w + k)%nat
    /\ forall fuel,
         loop (k + fuel)%nat w
         = (pre ++ trace (loop fuel w'), result (loop fuel w')).
Proof.
  induction k as [|k IH]; intros w Hc Hs.
  - exists [], w. repeat split; auto.
    intros fuel. cbn. destruct (loop fuel w); reflexivity.
  - assert (H0 : stops E (tick w) = false).
    { rewrite <- (Nat.add_0_r (tick w)). apply Hs. lia. }
    destruct (IH (frame_world E w)) as (pre & w' & Hd & Hc' & Ht & Hrun).
    + cbn. now rewrite H0.
    + intros i Hi. cbn. rewrite <- Nat.add_succ_r. apply Hs. lia.
    + exists (glfwWindowShouldClose win
              :: frame_calls E win shaderProgram VAO w ++ pre), w'.
      repeat split; auto.
      * change (draws (?c :: ?l)) with (draws ([c] ++ l)).
        rewrite !draws_app, frame_calls_draws, Hd. reflexivity.
      * rewrite Ht. cbn. lia.
      * intros fuel. cbn [Nat.add].
        rewrite (render_loop_open _ _ _ _ _ _ Hc), Hrun.
        cbn [trace result fst snd].
        now rewrite <- app_comm_cons, <- app_assoc.
Qed.

(** The first frame in which escape is seen or the window is closed is
    the last one. *)
Lemma render_loop_stops (k : nat) (w : world) :
  close_flag w = 0 ->
  (forall i, (i < k)%nat -> stops E (tick w + i) = false) ->
  stops E (tick w + k) = true ->
  forall fuel, (k + 2 <= fuel)%nat ->
    exists w',
      result (loop fuel w) = Ret tt w'
      /\ close_flag w' = 1
      /\ tick w' = (tick w + k + 1)%nat
      /\ draws (trace (loop fuel w)) = S k
      /\ (key_escape E (tick w + k) = GLFW_PRESS ->
          In (glfwSetWindowShouldClose win 1) (trace (loop fuel w))).
Proof.
  intros Hc Hrun Hstop fuel Hf.
  destruct (render_loop_runs k w Hc Hrun)
    as (pre & w1 & Hd & Hc1 & Ht1 & Heq).
  replace fuel with (k + S (S (fuel - k - 2)))%nat by lia.
  rewrite Heq.
  rewrite (render_loop_open _ _ _ _ _ _ Hc1).
  assert (Hup : close_flag (frame_world E w1) <> 0).
  { cbn. rewrite Ht1, Hstop. discriminate. }
  rewrite (render_loop_closed _ _ _ _ _ _ Hup). cbn [trace result fst snd].
  exists (frame_world E w1). repeat split.
  - cbn. now rewrite Ht1, Hstop.
  - cbn. rewrite Ht1. lia.
  - change (draws (pre ++ ?c :: ?l)) with (draws (pre ++ [c] ++ l)).
    rewrite !draws_app, frame_calls_draws, Hd. cbn. lia.
  - intros Hk. apply in_or_app. right. right.
    apply in_or_app. left. unfold frame_calls, input_calls.
    rewrite Ht1, Hk. cbn. auto.
Qed.

End LoopRuns.

(** C2: every iteration of the render loop is the same sequence: the input
    check of [processInput], then clear, bind program, bind vertex array,
    one indexed draw, unbind, swap (the list [render_steps]), then event
    polling.  The trace of the loop is a repetition of such iterations,
    each after one evaluation of the loop condition, and one iteration
    issues exactly one draw call.  The loop does run them: entered with the
    close flag down it evaluates its condition, runs [frame] once, which
    returns, and goes on as the loop from the state [frame] left; entered
    with the flag up it evaluates its condition and returns. *)
Theorem render_loop_iterations (E : env) (win : window)
    (shaderProgram VAO : Z) (fuel : nat) (w : world) :
  loop_trace win shaderProgram VAO
             (trace (render_loop E win shaderProgram VAO fuel w))
  /\ iteration win shaderProgram VAO
               (trace (frame E win shaderProgram VAO w))
  /\ draws (trace (frame E win shaderProgram VAO w)) = 1%nat
  /\ (close_flag w = 0 ->
      exists w',
        result (frame E win shaderProgram VAO w) = Ret tt w'
        /\ render_loop E win shaderProgram VAO (S fuel) w
           = (glfwWindowShouldClose win
                :: trace (frame E win shaderProgram VAO w)
                ++ trace (render_loop E win shaderProgram VAO fuel w'),
              result (render_loop E win shaderProgram VAO fuel w')))
  /\ (close_flag w <> 0 ->
      render_loop E win shaderProgram VAO (S fuel) w
      = ([glfwWindowShouldClose win], Ret tt w)).
Proof.
  split; [apply render_loop_shape|].
  rewrite frame_eq. cbn [trace result fst snd].
  split; [apply frame_calls_iteration|].
  split; [apply frame_calls_draws|].
  split.
  - intros Hc. exists (frame_world E w).
    split; [reflexivity | apply render_loop_open, Hc].
  - apply render_loop_closed.
Qed.

(** In [env_escape], from the initial state: the first iteration is run in
    full and the loop goes on for the remaining fuel; with the flag up
    the loop only evaluates its condition. *)
Lemma render_loop_iterations_witness :
  (exists w',
     result (frame env_escape 77 3 1 initial_world) = Ret tt w'
     /\ render_loop env_escape 77 3 1 3 initial_world
        = (glfwWindowShouldClose 77
             :: trace (frame env_escape 77 3 1 initial_world)
             ++ trace (render_loop env_escape 77 3 1 2 w'),
           result (render_loop env_escape 77 3 1 2 w')))
  /\ render_loop env_escape 77 3 1 3 (set_close_flag 1 initial_world)
     = ([glfwWindowShouldClose 77], Ret tt (set_close_flag 1 initial_world)).
Proof.
  destruct (render_loop_iterations env_escape 77 3 1 2 initial_world)
    as (_ & _ & _ & Hopen & _).
  destruct (render_loop_iterations env_escape 77 3 1 2
              (set_close_flag 1 initial_world))
    as (_ & _ & _ & _ & Hclosed).
  split; [exact (Hopen eq_refl) | apply Hclosed; discriminate].
Defined.

(** C3: started with the close flag down, the loop keeps drawing, one draw
    per frame, as long as neither escape is seen pressed nor the window is
    closed: after [k] such frames it is still running.  In the first frame
    where one of the two happens the flag goes up, the frame is completed
    and the loop returns at the next evaluation of its condition, after
    [k + 1] draws in all; when it was escape that was seen, that frame
    called [glfwSetWindowShouldClose(window, true)]. *)
Theorem render_loop_until_close (E : env) (win : window)
    (shaderProgram VAO : Z) (k : nat) (w : world) :
  close_flag w = 0 ->
  (forall i, (i < k)%nat -> stops E (tick w + i) = false) ->
  stops E (tick w + k) = true ->
  (result (render_loop E win shaderProgram VAO k w) = Running
   /\ draws (trace (render_loop E win shaderProgram VAO k w)) = k)
  /\ forall fuel, (k + 2 <= fuel)%nat ->
       exists w',
         result (render_loop E win shaderProgram VAO fuel w) = Ret tt w'
         /\ close_flag w' = 1
         /\ tick w' = (tick w + k + 1)%nat
         /\ draws (trace (render_loop E win shaderProgram VAO fuel w)) = S k
         /\ (key_escape E (tick w + k) = GLFW_PRESS ->
             In (glfwSetWindowShouldClose win 1)
                (trace (render_loop E win shaderProgram VAO fuel w))).
Proof.
  intros Hc Hrun Hstop. split.
  - destruct (render_loop_runs E win shaderProgram VAO k w Hc Hrun)
      as (pre & w1 & Hd & _ & _ & Heq).
    specialize (Heq 0%nat). rewrite Nat.add_0_r in Heq. rewrite Heq.
    cbn. rewrite app_nil_r. auto.
  - intros fuel Hf. now apply render_loop_stops.
Qed.

(** In [env_escape], escape is first seen in the second frame: one frame
    runs on, the second raises the flag, two draws in all. *)
Lemma render_loop_until_close_witness :
  (result (render_loop env_escape 77 3 1 1 initial_world) = Running
   /\ draws (trace (render_loop env_escape 77 3 1 1 initial_world)) = 1%nat)
  /\ exists w',
       result (render_loop env_escape 77 3 1 3 initial_world) = Ret tt w'
       /\ close_flag w' = 1
       /\ tick w' = 2%nat
       /\ draws (trace (render_loop env_escape 77 3 1 3 initial_world)) = 2%nat
       /\ In (glfwSetWindowShouldClose 77 1)
             (trace (render_loop env_escape 77 3 1 3 initial_world)).
Proof.
  assert (H1 : forall i, (i < 1)%nat ->
                 stops env_escape (tick initial_world + i) = false).
  { intros i Hi. assert (i = 0%nat) as -> by lia. reflexivity. }
  destruct (render_loop_until_close env_escape 77 3 1 1 initial_world
              eq_refl H1 eq_refl) as [Hrun Hexit].
  split; [exact Hrun|].
  destruct (Hexit 3%nat (le_n 3)) as (w' & Hr & Hc & Ht & Hd & Hin).
  exists w'. repeat split; auto.
Defined.

(** ** Startup *)

(** Unfolds the straight-line part of the program down to the tests on
    what the environment answered. *)
Ltac unfold_startup :=
  unfold startup, initWindow, upload_geometry, build_shader_program,
    lib_glfwSetFramebufferSizeCallback, bind, emit, ask, exit, get, modify,
    ret;
  cbn.

(** Case analysis on the two status words the shader builder tests. *)
Ltac shader_cases E :=
  destruct (vertex_compile_status E =? 0) eqn:?; cbn;
  destruct (link_status E =? 0) eqn:?; cbn.

Section Startup.

Variable E : env.

Lemma initWindow_no_window (w : world) :
  created_window E = NULL ->
  initWindow E w
  = ([ glfwInit;
       glfwWindowHint GLFW_CONTEXT_VERSION_MAJOR (hint_int 3);
       glfwWindowHint GLFW_CONTEXT_VERSION_MINOR (hint_int 3);
       glfwWindowHint GLFW_OPENGL_PROFILE GLFW_OPENGL_CORE_PROFILE;
       glfwCreateWindow 800 600 "LearnOpenGL";
       cout ("Failed to create window" ++ nl);
       glfwTerminate ],
     Exit 0).
Proof.
  intros H. unfold_startup. rewrite H. reflexivity.
Qed.

Lemma initWindow_no_loader (w : world) :
  created_window E <> NULL ->
  glad_loaded E = 0 ->
  initWindow E w
  = ([ glfwInit;
       glfwWindowHint GLFW_CONTEXT_VERSION_MAJOR (hint_int 3);
       glfwWindowHint GLFW_CONTEXT_VERSION_MINOR (hint_int 3);
       glfwWindowHint GLFW_OPENGL_PROFILE GLFW_OPENGL_CORE_PROFILE;
       glfwCreateWindow 800 600 "LearnOpenGL";
       glfwMakeContextCurrent (created_window E);
       gladLoadGLLoader;
       cout ("Failed to initialize GLAD" ++ nl) ],
     Exit 0).
Proof.
  intros Hw Hg. apply Z.eqb_neq in Hw. unfold_startup.
  rewrite Hw. cbn. rewrite Hg. reflexivity.
Qed.

Lemma initWindow_ok (w : world) :
  created_window E <> NULL ->
  glad_loaded E <> 0 ->
  initWindow E w
  = ([ glfwInit;
       glfwWindowHint GLFW_CONTEXT_VERSION_MAJOR (hint_int 3);
       glfwWindowHint GLFW_CONTEXT_VERSION_MINOR (hint_int 3);
       glfwWindowHint GLFW_OPENGL_PROFILE GLFW_OPENGL_CORE_PROFILE;
       glfwCreateWindow 800 600 "LearnOpenGL";
       glfwMakeContextCurrent (created_window E);
       gladLoadGLLoader;
       glfwSetFramebufferSizeCallback (created_window E)
                                      cb_framebuffer_size_callback;
       glViewport 0 0 800 600 ],
     Ret (created_window E)
         (set_fb_callback (created_window E) cb_framebuffer_size_callback w)).
Proof.
  intros Hw Hg. apply Z.eqb_neq in Hw, Hg. unfold_startup.
  rewrite Hw. cbn. rewrite Hg. reflexivity.
Qed.

Lemma startup_returns (w : world) :
  created_window E <> NULL ->
  glad_loaded E <> 0 ->
  result (startup E w)
  = Ret (created_window E, new_program E, gen_VAO E)
        (set_fb_callback (created_window E) cb_framebuffer_size_callback w).
Proof.
  intros Hw Hg. apply Z.eqb_neq in Hw, Hg. unfold_startup.
  rewrite Hw. cbn. rewrite Hg. cbn. shader_cases E; reflexivity.
Qed.

Lemma startup_exits (w : world) :
  created_window E = NULL \/ glad_loaded E = 0 ->
  result (startup E w) = Exit 0.
Proof.
  intros H. unfold_startup.
  destruct (created_window E =? NULL) eqn:Hw; [reflexivity|]. cbn.
  destruct H as [H|H]; [apply Z.eqb_neq in Hw; contradiction|].
  rewrite H. reflexivity.
Qed.

(** [main] is [startup], the loop, the shutdown. *)
Lemma main_startup (fuel : nat) (w : world) :
  main E fuel w
  = ('(window, shaderProgram, VAO) <- startup E ;;
     render_loop E window shaderProgram VAO fuel ;;
     emit glfwTerminate ;;
     ret 0) w.
Proof.
  unfold main. unfold_startup.
  destruct (created_window E =? NULL); [reflexivity|]. cbn.
  destruct (glad_loaded E =? 0); [reflexivity|]. cbn.
  shader_cases E;
    destruct (render_loop E _ _ _ fuel _) as [t [[] w'| s |]];
    cbn; rewrite <- ?app_assoc; reflexivity.
Qed.

(** The whole run when window and loader are there: the calls of
    [startup], those of the loop, and [glfwTerminate] once the loop has
    returned. *)
Lemma run_ok (fuel : nat) :
  created_window E <> NULL ->
  glad_loaded E <> 0 ->
  forall r,
    r = render_loop E (created_window E) (new_program E) (gen_VAO E) fuel
          (set_fb_callback (created_window E) cb_framebuffer_size_callback
                           initial_world) ->
    run E fuel
    = (trace (startup E initial_world) ++ trace r
       ++ match result r with Ret _ _ => [glfwTerminate] | _ => [] end,
       match result r with
       | Ret _ w' => Ret 0 w'
       | Exit s => Exit s
       | Running => Running
       end).
Proof.
  intros Hw Hg r ->. unfold run. rewrite main_startup.
  pose proof (startup_returns initial_world Hw Hg) as Hs.
  destruct (startup E initial_world) as [t o] eqn:Es. cbn in Hs. subst o.
  rewrite (bind_ret_eq _ _ _ _ _ _ Es). cbn [trace result fst snd].
  unfold bind, emit, ret.
  destruct (render_loop E _ _ _ fuel _) as [t' [[] w'| s |]];
    cbn; rewrite ?app_nil_r; reflexivity.
Qed.

Lemma run_exits (fuel : nat) :
  created_window E = NULL \/ glad_loaded E = 0 ->
  run E fuel = (trace (initWindow E initial_world), Exit 0).
Proof.
  intros H. unfold run, main.
  destruct (Z.eq_dec (created_window E) NULL) as [Hw|Hw].
  - rewrite (initWindow_no_window initial_world Hw).
    apply bind_exit_eq, initWindow_no_window, Hw.
  - destruct H as [H|H]; [contradiction|].
    rewrite (initWindow_no_loader initial_world Hw H).
    apply bind_exit_eq, initWindow_no_loader; assumption.
Qed.

End Startup.

(** ** What the loop and the callbacks may call *)

Lemma filter_none (f : call -> bool) (t : list call) :
  Forall (fun c => f c = false) t -> filter f t = [].
Proof.
  induction 1 as [|c t Hc _ IH]; [reflexivity|]. cbn. now rewrite Hc.
Qed.

Lemma callback_calls (P : call -> Prop) (cb : callback) (win : window)
    (fb_width fb_height : Z) :
  (forall x y a b, P (glViewport x y a b)) ->
  always P (invoke_framebuffer_size cb win fb_width fb_height).
Proof.
  intros H. destruct cb. unfold invoke_framebuffer_size,
    framebuffer_size_callback. auto with trace.
Qed.

Section LoopCalls.

Variable E : env.
Variables (win : window) (shaderProgram VAO : Z).
Variable P : call -> Prop.

Hypothesis P_should_close : P (glfwWindowShouldClose win).
Hypothesis P_get_key : P (glfwGetKey win GLFW_KEY_ESCAPE).
Hypothesis P_set_close : P (glfwSetWindowShouldClose win 1).
Hypothesis P_render : Forall P (render_steps win shaderProgram VAO).
Hypothesis P_poll : P glfwPollEvents.
Hypothesis P_viewport : forall x y a b, P (glViewport x y a b).

Lemma frame_always : always P (frame E win shaderProgram VAO).
Proof.
  intros w. rewrite frame_eq. cbn [trace fst].
  unfold frame_calls. rewrite !Forall_app. repeat split.
  - unfold input_calls. destruct (_ =? _); repeat constructor; assumption.
  - exact P_render.
  - unfold event_calls. constructor; [assumption|].
    destruct (resized _) as [[fw fh]|]; [|constructor].
    destruct (fb_callback w) as [[cw f]|]; [|constructor].
    apply callback_calls, P_viewport.
Qed.

Lemma render_loop_always (fuel : nat) :
  always P (render_loop E win shaderProgram VAO fuel).
Proof.
  induction fuel as [|fuel IH]; cbn [render_loop].
  - auto with trace.
  - unfold lib_glfwWindowShouldClose.
    apply always_bind; [always_step|]. intros closing.
    apply always_if; [|apply always_ret].
    apply always_bind; [apply frame_always | intros _; apply IH].
Qed.

End LoopCalls.

Lemma render_loop_loop_calls E win shaderProgram VAO fuel :
  always (fun c => loop_call c = true)
         (render_loop E win shaderProgram VAO fuel).
Proof.
  apply render_loop_always; try reflexivity; repeat constructor.
Qed.

Lemma render_loop_without (f : call -> bool) E win shaderProgram VAO fuel w :
  (forall c, loop_call c = true -> f c = false) ->
  filter f (trace (render_loop E win shaderProgram VAO fuel w)) = [].
Proof.
  intros H. apply filter_none.
  eapply Forall_impl; [|apply render_loop_loop_calls]. exact H.
Qed.

Lemma loop_call_no_mutation c : loop_call c = true -> mutates_resource c = false.
Proof. destruct c; auto; discriminate. Qed.

Lemma loop_call_no_creation c : loop_call c = true -> creates_resource c = false.
Proof. destruct c; auto; discriminate. Qed.

Lemma loop_call_no_upload c : loop_call c = true -> is_upload c = false.
Proof. destruct c; auto; discriminate. Qed.

Lemma loop_call_no_release c : loop_call c = true -> is_release c = false.
Proof. destruct c; auto; discriminate. Qed.

Lemma loop_call_no_print c : loop_call c = true -> is_print c = false.
Proof. destruct c; auto; discriminate. Qed.

Lemma loop_call_no_window c : loop_call c = true -> is_create_window c = false.
Proof. destruct c; auto; discriminate. Qed.

Lemma loop_call_no_file c : loop_call c = true -> is_file_or_config c = false.
Proof. destruct c; auto; discriminate. Qed.

Lemma render_loop_memory E win shaderProgram VAO fuel : forall w a w',
  result (render_loop E win shaderProgram VAO fuel w) = Ret a w' ->
  mem_vertices w' = mem_vertices w /\ mem_indices w' = mem_indices w.
Proof.
  induction fuel as [|fuel IH]; intros w a w' H; [discriminate|].
  destruct (Z.eq_dec (close_flag w) 0) as [Hc|Hc].
  - rewrite (render_loop_open _ _ _ _ _ _ Hc) in H. cbn [result snd] in H.
    apply IH in H. exact H.
  - rewrite (render_loop_closed _ _ _ _ _ _ Hc) in H. cbn in H.
    inversion H. auto.
Qed.

(** ** What startup calls *)

Section StartupCalls.

Variable E : env.
Hypothesis Hwindow : created_window E <> NULL.
Hypothesis Hloader : glad_loaded E <> 0.

(** Evaluates [startup] when window and loader are there. *)
Ltac eval_startup :=
  pose proof Hwindow as Hw; pose proof Hloader as Hg;
  apply Z.eqb_neq in Hw, Hg;
  unfold_startup; rewrite Hw; cbn; rewrite Hg; cbn;
  shader_cases E; rewrite ?Z.eqb_refl; try reflexivity.

Lemma startup_creations (w : world) :
  filter creates_resource (trace (startup E w))
  = [glGenVertexArrays 1; glGenBuffers 1; glGenBuffers 1; glCreateProgram].
Proof. eval_startup. Qed.

Lemma startup_uploads (w : world) :
  filter is_upload (trace (startup E w))
  = [ glBufferData GL_ARRAY_BUFFER 72 (float_data (mem_vertices w))
                   GL_STATIC_DRAW;
      glBufferData GL_ELEMENT_ARRAY_BUFFER 24 (uint_data (mem_indices w))
                   GL_STATIC_DRAW ].
Proof. eval_startup. Qed.

Lemma startup_releases (w : world) :
  filter is_release (trace (startup E w))
  = [ glDeleteShader (new_vertexShader E);
      glDeleteShader (new_fragmentShader E) ].
Proof. eval_startup. Qed.

Lemma startup_prints (w : world) :
  filter is_print (trace (startup E w))
  = if vertex_compile_status E =? 0
    then [cout ("ERROR::SHADER::VERTEX::COMPILATION_FAILED" ++ nl
                ++ vertex_info_log E ++ nl)]
    else [].
Proof. eval_startup. Qed.

Lemma startup_windows (w : world) :
  filter is_create_window (trace (startup E w))
  = [glfwCreateWindow 800 600 "LearnOpenGL"].
Proof. eval_startup. Qed.

Lemma startup_files (w : world) :
  filter is_file_or_config (trace (startup E w)) = [].
Proof. eval_startup. Qed.

Lemma startup_handles (w : world) :
  Forall (fun c => uses_handles (new_program E) (gen_VAO E) c = true)
         (trace (startup E w)).
Proof. eval_startup; repeat constructor; cbn; now rewrite Z.eqb_refl. Qed.

End StartupCalls.

(** ** Whole runs *)

Lemma render_loop_no_exit E win shaderProgram VAO fuel : forall w s,
  result (render_loop E win shaderProgram VAO fuel w) <> Exit s.
Proof.
  induction fuel as [|fuel IH]; intros w s; [discriminate|].
  destruct (Z.eq_dec (close_flag w) 0) as [Hc|Hc].
  - rewrite (render_loop_open _ _ _ _ _ _ Hc). apply IH.
  - rewrite (render_loop_closed _ _ _ _ _ _ Hc). discriminate.
Qed.

Section Runs.

Variable E : env.
Variable fuel : nat.

(** The loop as [main] starts it. *)
Local Abbreviation main_loop :=
  (render_loop E (created_window E) (new_program E) (gen_VAO E) fuel
     (set_fb_callback (created_window E) cb_framebuffer_size_callback
                      initial_world)).

Lemma run_filter (f : call -> bool) :
  created_window E <> NULL ->
  glad_loaded E <> 0 ->
  (forall c, loop_call c = true -> f c = false) ->
  filter f (trace (run E fuel))
  = filter f (trace (startup E initial_world))
    ++ match result main_loop with
       | Ret _ _ => filter f [glfwTerminate]
       | _ => []
       end.
Proof.
  intros Hw Hg Hf. rewrite (run_ok E fuel Hw Hg _ eq_refl).
  cbn [trace fst]. rewrite !filter_app.
  rewrite (render_loop_without f _ _ _ _ _ _ Hf). cbn [app].
  destruct (result main_loop); reflexivity.
Qed.

Lemma run_returns_ok (s : Z) (w' : world) :
  result (run E fuel) = Ret s w' ->
  created_window E <> NULL /\ glad_loaded E <> 0.
Proof.
  intros H.
  destruct (Z.eq_dec (created_window E) NULL) as [Hw|Hw].
  { rewrite (run_exits E fuel (or_introl Hw)) in H. discriminate. }
  destruct (Z.eq_dec (glad_loaded E) 0) as [Hg|Hg].
  { rewrite (run_exits E fuel (or_intror Hg)) in H. discriminate. }
  auto.
Qed.

End Runs.

(** ** The claims *)

(** C1, at the failing input [env_link_fails]: window and loader are
    there, the vertex shader compiles and [glLinkProgram] fails.  The
    program fetches the program info log, prints nothing at all, goes on
    to draw with the unlinked program and returns 0.  So a link failure
    is ignored without being logged. *)
Theorem link_failure_is_not_printed :
  link_status env_link_fails = 0
  /\ filter is_print (trace (run env_link_fails 2)) = []
  /\ In (glGetProgramInfoLog 3 512) (trace (run env_link_fails 2))
  /\ In (glUseProgram 3) (trace (run env_link_fails 2))
  /\ draws (trace (run env_link_fails 2)) = 1%nat
  /\ exit_status (result (run env_link_fails 2)) = Some 0.
Proof.
  repeat split; try reflexivity; vm_compute; tauto.
Qed.

(** C4, as the code has it: GLFW passes the new framebuffer width, then
    the height; the callback binds them to its parameters [height] and
    [width] in that order and so sets the viewport to (height, width).
    In [env_escape] the resize to 1024 x 768 ends in
    [glViewport(0, 0, 768, 1024)]. *)
Theorem framebuffer_size_callback_swaps (cb : callback) (win : window)
    (fb_width fb_height : Z) (w : world) :
  trace (invoke_framebuffer_size cb win fb_width fb_height w)
  = [glViewport 0 0 fb_height fb_width]
  /\ filter is_viewport (trace (run env_escape 3))
     = [glViewport 0 0 800 600; glViewport 0 0 768 1024].
Proof.
  split; [destruct cb; reflexivity | vm_compute; reflexivity].
Qed.

(** C5: the vertex array holds 18 floats, 6 vertices of 3 coordinates;
    the index array holds 6 indices, each between 0 and 5 and so naming one
    of the 6 vertices, 3 per triangle for 2 triangles.  When window and
    loader are there, these two arrays in full are what is uploaded, once
    each, and the draw call draws all 6 indices as triangles. *)
Theorem geometry_uploaded (E : env) (fuel : nat) :
  created_window E <> NULL ->
  glad_loaded E <> 0 ->
  List.length vertices = (6 * 3)%nat
  /\ List.length indices = (2 * 3)%nat
  /\ Forall (fun i => 0 <= i <= 5) indices
  /\ filter is_upload (trace (run E fuel))
     = [ glBufferData GL_ARRAY_BUFFER (18 * sizeof_float)
                      (float_data vertices) GL_STATIC_DRAW;
         glBufferData GL_ELEMENT_ARRAY_BUFFER (6 * sizeof_unsigned_int)
                      (uint_data indices) GL_STATIC_DRAW ]
  /\ forall win shaderProgram VAO,
       filter is_draw (render_steps win shaderProgram VAO)
       = [ glDrawElements GL_TRIANGLES (Z.of_nat (List.length indices))
                          GL_UNSIGNED_INT 0 ].
Proof.
  intros Hw Hg. repeat split; try reflexivity.
  - repeat constructor; cbn; lia.
  - rewrite (run_filter E fuel is_upload Hw Hg loop_call_no_upload).
    rewrite (startup_uploads E Hw Hg).
    destruct (result _); reflexivity.
Qed.

Lemma geometry_uploaded_witness :
  List.length vertices = (6 * 3)%nat
  /\ List.length indices = (2 * 3)%nat
  /\ Forall (fun i => 0 <= i <= 5) indices
  /\ filter is_upload (trace (run env_escape 3))
     = [ glBufferData GL_ARRAY_BUFFER (18 * sizeof_float)
                      (float_data vertices) GL_STATIC_DRAW;
         glBufferData GL_ELEMENT_ARRAY_BUFFER (6 * sizeof_unsigned_int)
                      (uint_data indices) GL_STATIC_DRAW ]
  /\ forall win shaderProgram VAO,
       filter is_draw (render_steps win shaderProgram VAO)
       = [ glDrawElements GL_TRIANGLES (Z.of_nat (List.length indices))
                          GL_UNSIGNED_INT 0 ].
Proof.
  apply (geometry_uploaded env_escape 3); discriminate.
Defined.

(** C6: when window and loader are there, a run creates the vertex array,
    the two buffers and the program with one call each and fills each
    buffer with one call, all before the loop.  No call of the render loop
    or of a callback creates, fills, configures or releases a GPU object;
    every use of a program or vertex array in the run names the handles
    obtained at startup; and when the loop has returned, the arrays
    [vertices] and [indices] hold what they held at the start. *)
Theorem resources_created_once_never_mutated (E : env) (fuel : nat) :
  created_window E <> NULL ->
  glad_loaded E <> 0 ->
  filter creates_resource (trace (run E fuel))
  = [glGenVertexArrays 1; glGenBuffers 1; glGenBuffers 1; glCreateProgram]
  /\ filter is_upload (trace (run E fuel))
     = [ glBufferData GL_ARRAY_BUFFER 72 (float_data vertices)
                      GL_STATIC_DRAW;
         glBufferData GL_ELEMENT_ARRAY_BUFFER 24 (uint_data indices)
                      GL_STATIC_DRAW ]
  /\ (forall win shaderProgram VAO n w,
        Forall (fun c => mutates_resource c = false)
               (trace (render_loop E win shaderProgram VAO n w)))
  /\ (forall cb win fb_width fb_height w,
        Forall (fun c => mutates_resource c = false)
               (trace (invoke_framebuffer_size cb win fb_width fb_height w)))
  /\ Forall (fun c => uses_handles (new_program E) (gen_VAO E) c = true)
            (trace (run E fuel))
  /\ (forall s w', result (run E fuel) = Ret s w' ->
        mem_vertices w' = vertices /\ mem_indices w' = indices).
Proof.
  intros Hw Hg. repeat apply conj.
  - rewrite (run_filter E fuel _ Hw Hg loop_call_no_creation).
    rewrite (startup_creations E Hw Hg). destruct (result _); reflexivity.
  - rewrite (run_filter E fuel _ Hw Hg loop_call_no_upload).
    rewrite (startup_uploads E Hw Hg). destruct (result _); reflexivity.
  - intros win sp vao n w.
    eapply Forall_impl; [|apply render_loop_loop_calls].
    exact loop_call_no_mutation.
  - intros cb win fw fh w. apply callback_calls. reflexivity.
  - rewrite (run_ok E fuel Hw Hg _ eq_refl). cbn [trace fst].
    rewrite !Forall_app. repeat split.
    + apply (startup_handles E Hw Hg).
    + apply render_loop_always; try reflexivity.
      repeat constructor; cbn;
        rewrite ?Z.eqb_refl, ?orb_true_r; reflexivity.
    + destruct (result _); repeat constructor.
  - intros s w' H. rewrite (run_ok E fuel Hw Hg _ eq_refl) in H.
    cbn [result snd] in H.
    destruct (result _) as [a w1| |] eqn:Hr; try discriminate.
    inversion H; subst. apply render_loop_memory in Hr. exact Hr.
Qed.

Lemma resources_created_once_never_mutated_witness :
  filter creates_resource (trace (run env_escape 3))
  = [glGenVertexArrays 1; glGenBuffers 1; glGenBuffers 1; glCreateProgram]
  /\ Forall (fun c => mutates_resource c = false)
            (trace (render_loop env_escape 77 3 1 3
                      (set_fb_callback 77 cb_framebuffer_size_callback
                                       initial_world)))
  /\ Forall (fun c => uses_handles 3 1 c = true) (trace (run env_escape 3)).
Proof.
  assert (Hw : created_window env_escape <> NULL) by discriminate.
  assert (Hg : glad_loaded env_escape <> 0) by discriminate.
  destruct (resources_created_once_never_mutated env_escape 3 Hw Hg)
    as (Hc & _ & Hl & _ & Hh & _).
  split; [exact Hc | split; [apply Hl | exact Hh]].
Defined.

(** C7: a run that shuts down normally ends with [glfwTerminate], and the
    releasing calls of the whole run are the two [glDeleteShader] of
    startup and that [glfwTerminate]: no buffer, vertex array or program
    is deleted and no window is destroyed on its own. *)
Theorem shutdown_releases_only_the_library (E : env) (fuel : nat)
    (s : Z) (w' : world) :
  result (run E fuel) = Ret s w' ->
  (exists t, trace (run E fuel) = t ++ [glfwTerminate])
  /\ filter is_release (trace (run E fuel))
     = [ glDeleteShader (new_vertexShader E);
         glDeleteShader (new_fragmentShader E);
         glfwTerminate ].
Proof.
  intros H. destruct (run_returns_ok E fuel s w' H) as [Hw Hg]. split.
  - rewrite (run_ok E fuel Hw Hg _ eq_refl) in H |- *.
    cbn [trace result fst snd] in H |- *.
    destruct (result _); try discriminate.
    eexists. rewrite app_assoc. reflexivity.
  - rewrite (run_filter E fuel _ Hw Hg loop_call_no_release).
    rewrite (startup_releases E Hw Hg).
    rewrite (run_ok E fuel Hw Hg _ eq_refl) in H. cbn [result snd] in H.
    destruct (result _); try discriminate. reflexivity.
Qed.

Lemma shutdown_releases_only_the_library_witness :
  (exists t, trace (run env_escape 3) = t ++ [glfwTerminate])
  /\ filter is_release (trace (run env_escape 3))
     = [glDeleteShader 1; glDeleteShader 2; glfwTerminate].
Proof.
  eapply (shutdown_releases_only_the_library env_escape 3).
  vm_compute. reflexivity.
Defined.

(** C8: [initWindow] returns exactly when the window was created and the
    loader initialised.  It has then, in this order, initialised GLFW and
    set the three hints, created the 800 x 600 window, made its context
    current, loaded the GL entry points, installed
    [framebuffer_size_callback] and set the viewport to 800 x 600, and the
    handle it returns is the created window, which is not [NULL]. *)
Theorem initWindow_success (E : env) (w : world) :
  (created_window E <> NULL ->
   glad_loaded E <> 0 ->
   initWindow E w
   = ([ glfwInit;
        glfwWindowHint GLFW_CONTEXT_VERSION_MAJOR (hint_int 3);
        glfwWindowHint GLFW_CONTEXT_VERSION_MINOR (hint_int 3);
        glfwWindowHint GLFW_OPENGL_PROFILE GLFW_OPENGL_CORE_PROFILE;
        glfwCreateWindow 800 600 "LearnOpenGL";
        glfwMakeContextCurrent (created_window E);
        gladLoadGLLoader;
        glfwSetFramebufferSizeCallback (created_window E)
                                       cb_framebuffer_size_callback;
        glViewport 0 0 800 600 ],
      Ret (created_window E)
          (set_fb_callback (created_window E) cb_framebuffer_size_callback
                           w)))
  /\ (forall win w1,
        result (initWindow E w) = Ret win w1 ->
        created_window E <> NULL /\ glad_loaded E <> 0 /\ win <> NULL).
Proof.
  split; [apply initWindow_ok|].
  intros win w1 H.
  destruct (Z.eq_dec (created_window E) NULL) as [Hw|Hw].
  { rewrite (initWindow_no_window E w Hw) in H. discriminate. }
  destruct (Z.eq_dec (glad_loaded E) 0) as [Hg|Hg].
  { rewrite (initWindow_no_loader E w Hw Hg) in H. discriminate. }
  rewrite (initWindow_ok E w Hw Hg) in H. inversion H; subst. auto.
Qed.

Lemma initWindow_success_witness :
  result (initWindow env_escape initial_world)
  = Ret 77 (set_fb_callback 77 cb_framebuffer_size_callback initial_world)
  /\ (created_window env_escape <> NULL /\ glad_loaded env_escape <> 0
      /\ 77 <> NULL).
Proof.
  destruct (initWindow_success env_escape initial_world) as [Hok Hpre].
  assert (Hw : created_window env_escape <> NULL) by discriminate.
  assert (Hg : glad_loaded env_escape <> 0) by discriminate.
  split.
  - rewrite (Hok Hw Hg). reflexivity.
  - apply (Hpre 77 (set_fb_callback 77 cb_framebuffer_size_callback
                                    initial_world)).
    rewrite (Hok Hw Hg). reflexivity.
Defined.

(** C9: whatever the environment answers and however long the program
    runs, it creates one window, 800 by 600, titled "LearnOpenGL", and
    makes no call that opens a file or reads configuration.  [main] has no
    parameter besides the environment: there are no command-line
    arguments to read. *)
Theorem external_interface (E : env) (fuel : nat) :
  filter is_create_window (trace (run E fuel))
  = [glfwCreateWindow 800 600 "LearnOpenGL"]
  /\ filter is_file_or_config (trace (run E fuel)) = [].
Proof.
  destruct (Z.eq_dec (created_window E) NULL) as [Hw|Hw].
  { rewrite (run_exits E fuel (or_introl Hw)), (initWindow_no_window E _ Hw).
    split; reflexivity. }
  destruct (Z.eq_dec (glad_loaded E) 0) as [Hg|Hg].
  { rewrite (run_exits E fuel (or_intror Hg)),
      (initWindow_no_loader E _ Hw Hg).
    split; reflexivity. }
  split.
  - rewrite (run_filter E fuel _ Hw Hg loop_call_no_window).
    rewrite (startup_windows E Hw Hg). destruct (result _); reflexivity.
  - rewrite (run_filter E fuel _ Hw Hg loop_call_no_file).
    rewrite (startup_files E Hw Hg). destruct (result _); reflexivity.
Qed.

(** C10: the process ends with status 0 on each of its three ways out:
    [exit(0)] when the window cannot be created, [exit(0)] when the loader
    fails, [return 0] once the loop has ended, which it does as soon as a
    frame sees escape or a close request.  No run ends with another
    status. *)
Theorem exit_status_is_zero (E : env) (fuel : nat) :
  (created_window E = NULL -> result (run E fuel) = Exit 0)
  /\ (created_window E <> NULL -> glad_loaded E = 0 ->
      result (run E fuel) = Exit 0)
  /\ (created_window E <> NULL -> glad_loaded E <> 0 ->
      forall k,
        (forall i, (i < k)%nat -> stops E i = false) ->
        stops E k = true ->
        (k + 2 <= fuel)%nat ->
        exists w', result (run E fuel) = Ret 0 w')
  /\ (forall s, exit_status (result (run E fuel)) = Some s -> s = 0).
Proof.
  repeat apply conj.
  - intros Hw. now rewrite (run_exits E fuel (or_introl Hw)).
  - intros _ Hg. now rewrite (run_exits E fuel (or_intror Hg)).
  - intros Hw Hg k Hrun Hstop Hf.
    rewrite (run_ok E fuel Hw Hg _ eq_refl). cbn [result snd].
    destruct (render_loop_stops E (created_window E)
                (new_program E) (gen_VAO E) k
                (set_fb_callback (created_window E)
                   cb_framebuffer_size_callback initial_world)
                eq_refl Hrun Hstop fuel Hf) as (w' & Hr & _).
    rewrite Hr. eauto.
  - intros s.
    destruct (Z.eq_dec (created_window E) NULL) as [Hw|Hw].
    { rewrite (run_exits E fuel (or_introl Hw)). cbn. congruence. }
    destruct (Z.eq_dec (glad_loaded E) 0) as [Hg|Hg].
    { rewrite (run_exits E fuel (or_intror Hg)). cbn. congruence. }
    rewrite (run_ok E fuel Hw Hg _ eq_refl). cbn [result snd].
    destruct (result _) as [a w1|s1|] eqn:Hr; cbn; try congruence.
    exfalso. exact (render_loop_no_exit _ _ _ _ _ _ _ Hr).
Qed.

Lemma exit_status_is_zero_witness :
  result (run env_no_window 3) = Exit 0
  /\ result (run env_no_loader 3) = Exit 0
  /\ (exists w', result (run env_escape 3) = Ret 0 w').
Proof.
  destruct (exit_status_is_zero env_no_window 3) as (H1 & _).
  destruct (exit_status_is_zero env_no_loader 3) as (_ & H2 & _).
  destruct (exit_status_is_zero env_escape 3) as (_ & _ & H3 & _).
  assert (Hw : created_window env_escape <> NULL) by discriminate.
  assert (Hg : glad_loaded env_escape <> 0) by discriminate.
  assert (Hrun : forall i, (i < 1)%nat -> stops env_escape i = false).
  { intros i Hi. assert (i = 0%nat) as -> by lia. reflexivity. }
  split; [exact (H1 eq_refl)|].
  split; [apply H2; [discriminate | reflexivity]|].
  exact (H3 Hw Hg 1%nat Hrun eq_refl (le_n 3)).
Defined.

(** ** Beyond the claims: failure runs, output, handles *)

Lemma filter_removelast_none (f : call -> bool) (t : list call) :
  filter f t = [] -> filter f (removelast t) = [].
Proof.
  induction t as [|c t IH]; [reflexivity|]. cbn [filter].
  destruct (f c) eqn:Hc; [discriminate|]. intros H.
  destruct t as [|c' t']; [reflexivity|].
  change (removelast (c :: c' :: t')) with (c :: removelast (c' :: t')).
  cbn [filter]. rewrite Hc. auto.
Qed.

Section MoreStartupCalls.

Variable E : env.
Hypothesis Hwindow : created_window E <> NULL.
Hypothesis Hloader : glad_loaded E <> 0.

Ltac startup_by_cases :=
  pose proof Hwindow as Hw; pose proof Hloader as Hg;
  apply Z.eqb_neq in Hw, Hg;
  unfold_startup; rewrite Hw; cbn; rewrite Hg; cbn;
  shader_cases E.

Lemma startup_draws (w : world) : draws (trace (startup E w)) = 0%nat.
Proof. startup_by_cases; reflexivity. Qed.

Lemma startup_terminates (w : world) :
  filter is_terminate (trace (startup E w)) = [].
Proof. startup_by_cases; reflexivity. Qed.

Lemma startup_viewports (w : world) :
  filter is_viewport (trace (startup E w)) = [glViewport 0 0 800 600].
Proof. startup_by_cases; reflexivity. Qed.

Lemma startup_window_args (w : world) :
  Forall (fun c => forall x, window_arg c = Some x ->
                     x = created_window E /\ x <> NULL)
         (trace (startup E w)).
Proof.
  startup_by_cases;
    repeat (apply Forall_cons; [cbn; intros x Hx; try discriminate|]);
    try apply Forall_nil;
    inversion Hx; subst; auto.
Qed.

End MoreStartupCalls.

(** X1: what a run prints is decided by three answers of the environment:
    the window failure message when no window was created; else the loader
    failure message when the loader failed; else the vertex shader message
    with its info log when that shader did not compile; else nothing.  A
    run never prints more than one message. *)
Theorem run_prints (E : env) (fuel : nat) :
  filter is_print (trace (run E fuel))
  = if created_window E =? NULL
    then [cout ("Failed to create window" ++ nl)]
    else if glad_loaded E =? 0
    then [cout ("Failed to initialize GLAD" ++ nl)]
    else if vertex_compile_status E =? 0
    then [cout ("ERROR::SHADER::VERTEX::COMPILATION_FAILED" ++ nl
                ++ vertex_info_log E ++ nl)]
    else [].
Proof.
  destruct (Z.eq_dec (created_window E) NULL) as [Hw|Hw].
  { rewrite (run_exits E fuel (or_introl Hw)), (initWindow_no_window E _ Hw).
    rewrite Hw. reflexivity. }
  destruct (Z.eq_dec (glad_loaded E) 0) as [Hg|Hg].
  { rewrite (run_exits E fuel (or_intror Hg)),
      (initWindow_no_loader E _ Hw Hg).
    apply Z.eqb_neq in Hw. rewrite Hw, Hg. reflexivity. }
  rewrite (run_filter E fuel _ Hw Hg loop_call_no_print).
  rewrite (startup_prints E Hw Hg).
  apply Z.eqb_neq in Hw, Hg. rewrite Hw, Hg.
  destruct (result _); cbn; now rewrite app_nil_r.
Qed.

(** X2: when [glfwCreateWindow] returns [NULL], the whole process is the
    seven calls of [initWindow] up to [glfwTerminate] and [exit(0)]:
    nothing of [main] after [initWindow] runs, no context is made current,
    the loader is not run and no OpenGL entry point is called. *)
Theorem run_without_window (E : env) (fuel : nat) :
  created_window E = NULL ->
  run E fuel
  = ([ glfwInit;
       glfwWindowHint GLFW_CONTEXT_VERSION_MAJOR (hint_int 3);
       glfwWindowHint GLFW_CONTEXT_VERSION_MINOR (hint_int 3);
       glfwWindowHint GLFW_OPENGL_PROFILE GLFW_OPENGL_CORE_PROFILE;
       glfwCreateWindow 800 600 "LearnOpenGL";
       cout ("Failed to create window" ++ nl);
       glfwTerminate ],
     Exit 0)
  /\ filter is_gl_call (trace (run E fuel)) = [].
Proof.
  intros Hw.
  rewrite (run_exits E fuel (or_introl Hw)), (initWindow_no_window E _ Hw).
  split; reflexivity.
Qed.

Lemma run_without_window_witness :
  result (run env_no_window 5) = Exit 0
  /\ filter is_gl_call (trace (run env_no_window 5)) = [].
Proof.
  destruct (run_without_window env_no_window 5 eq_refl) as [H1 H2].
  split; [rewrite H1; reflexivity | exact H2].
Defined.

(** X3: when the window is there and [gladLoadGLLoader] returns 0, the
    process is the eight calls of [initWindow] up to the failure message
    and [exit(0)].  No OpenGL entry point is called, the resize callback is
    not installed, and, unlike on the window failure path,
    [glfwTerminate] is not called. *)
Theorem run_without_loader (E : env) (fuel : nat) :
  created_window E <> NULL ->
  glad_loaded E = 0 ->
  run E fuel
  = ([ glfwInit;
       glfwWindowHint GLFW_CONTEXT_VERSION_MAJOR (hint_int 3);
       glfwWindowHint GLFW_CONTEXT_VERSION_MINOR (hint_int 3);
       glfwWindowHint GLFW_OPENGL_PROFILE GLFW_OPENGL_CORE_PROFILE;
       glfwCreateWindow 800 600 "LearnOpenGL";
       glfwMakeContextCurrent (created_window E);
       gladLoadGLLoader;
       cout ("Failed to initialize GLAD" ++ nl) ],
     Exit 0)
  /\ filter is_gl_call (trace (run E fuel)) = []
  /\ filter is_terminate (trace (run E fuel)) = [].
Proof.
  intros Hw Hg.
  rewrite (run_exits E fuel (or_intror Hg)),
    (initWindow_no_loader E _ Hw Hg).
  repeat split; reflexivity.
Qed.

Lemma run_without_loader_witness :
  result (run env_no_loader 5) = Exit 0
  /\ filter is_gl_call (trace (run env_no_loader 5)) = []
  /\ filter is_terminate (trace (run env_no_loader 5)) = [].
Proof.
  assert (Hw : created_window env_no_loader <> NULL) by discriminate.
  destruct (run_without_loader env_no_loader 5 Hw eq_refl) as (H1 & H2 & H3).
  split; [rewrite H1; reflexivity | split; assumption].
Defined.

(** X4: every GLFW call of a run that takes a window is given the window
    [glfwCreateWindow] returned, and that window is not [NULL]: the
    program never hands GLFW a null or foreign window. *)
Theorem window_calls_use_the_created_window (E : env) (fuel : nat) :
  Forall (fun c => forall x, window_arg c = Some x ->
                     x = created_window E /\ x <> NULL)
         (trace (run E fuel)).
Proof.
  destruct (Z.eq_dec (created_window E) NULL) as [Hw|Hw].
  { rewrite (run_exits E fuel (or_introl Hw)), (initWindow_no_window E _ Hw).
    repeat (apply Forall_cons; [cbn; intros x Hx; discriminate|]).
    apply Forall_nil. }
  destruct (Z.eq_dec (glad_loaded E) 0) as [Hg|Hg].
  { rewrite (run_exits E fuel (or_intror Hg)),
      (initWindow_no_loader E _ Hw Hg).
    repeat (apply Forall_cons; [cbn; intros x Hx; try discriminate|]);
      try apply Forall_nil.
    inversion Hx; subst; auto. }
  rewrite (run_ok E fuel Hw Hg _ eq_refl). cbn [trace fst].
  rewrite !Forall_app. split; [|split].
  - apply (startup_window_args E Hw Hg).
  - apply render_loop_always.
    + cbn. intros x Hx. inversion Hx; subst; auto.
    + cbn. intros x Hx. inversion Hx; subst; auto.
    + cbn. intros x Hx. inversion Hx; subst; auto.
    + repeat (apply Forall_cons; [cbn; intros x Hx; try discriminate|]);
        try apply Forall_nil.
      inversion Hx; subst; auto.
    + cbn. intros x Hx. discriminate.
    + cbn. intros ? ? ? ? x Hx. discriminate.
  - destruct (result _); try apply Forall_nil.
    apply Forall_cons; [|apply Forall_nil]. cbn. intros x Hx. discriminate.
Qed.

(** X5: [glfwTerminate] is never followed by another call: in every run,
    all calls but the last are something else. *)
Theorem nothing_after_glfwTerminate (E : env) (fuel : nat) :
  filter is_terminate (removelast (trace (run E fuel))) = [].
Proof.
  destruct (Z.eq_dec (created_window E) NULL) as [Hw|Hw].
  { now rewrite (run_exits E fuel (or_introl Hw)),
      (initWindow_no_window E _ Hw). }
  destruct (Z.eq_dec (glad_loaded E) 0) as [Hg|Hg].
  { now rewrite (run_exits E fuel (or_intror Hg)),
      (initWindow_no_loader E _ Hw Hg). }
  rewrite (run_ok E fuel Hw Hg _ eq_refl). cbn [trace fst].
  assert (Hpre : forall r,
            filter is_terminate
              (trace (startup E initial_world)
               ++ trace (render_loop E (created_window E) (new_program E)
                           (gen_VAO E) fuel r)) = []).
  { intros r. rewrite filter_app, (startup_terminates E Hw Hg).
    apply render_loop_without. destruct c; auto; discriminate. }
  destruct (result _).
  - rewrite app_assoc, removelast_last. apply Hpre.
  - rewrite app_nil_r. apply filter_removelast_none, Hpre.
  - rewrite app_nil_r. apply filter_removelast_none, Hpre.
Qed.

(** ** Beyond the claims: how long the loop runs *)

Section LoopEnds.

Variable E : env.
Variables (win : window) (shaderProgram VAO : Z).

Local Abbreviation loop := (render_loop E win shaderProgram VAO).

(** A loop that has returned has seen a frame that stops it. *)
Lemma render_loop_returns (fuel : nat) : forall w a w',
  close_flag w = 0 ->
  result (loop fuel w) = Ret a w' ->
  exists k,
    (k + 2 <= fuel)%nat
    /\ (forall i, (i < k)%nat -> stops E (tick w + i) = false)
    /\ stops E (tick w + k) = true.
Proof.
  induction fuel as [|fuel IH]; intros w a w' Hc H; [discriminate|].
  rewrite (render_loop_open _ _ _ _ _ _ Hc) in H. cbn [result snd] in H.
  destruct (stops E (tick w)) eqn:Hs.
  - exists 0%nat. repeat split.
    + destruct fuel; [discriminate | lia].
    + intros i Hi. lia.
    + now rewrite Nat.add_0_r.
  - destruct (IH (frame_world E w) a w') as (k & Hk & Hrun & Hstop); auto.
    { cbn. now rewrite Hs. }
    exists (S k). repeat split.
    + lia.
    + intros [|i] Hi; [now rewrite Nat.add_0_r|].
      rewrite Nat.add_succ_r. apply (Hrun i). lia.
    + rewrite Nat.add_succ_r. exact Hstop.
Qed.

Lemma render_loop_callback (fuel : nat) : forall w a w',
  result (loop fuel w) = Ret a w' -> fb_callback w' = fb_callback w.
Proof.
  induction fuel as [|fuel IH]; intros w a w' H; [discriminate|].
  destruct (Z.eq_dec (close_flag w) 0) as [Hc|Hc].
  - rewrite (render_loop_open _ _ _ _ _ _ Hc) in H. cbn [result snd] in H.
    apply IH in H. exact H.
  - rewrite (render_loop_closed _ _ _ _ _ _ Hc) in H. cbn in H.
    now inversion H.
Qed.

(** The viewport calls of a loop that stops in its frame [k]: one per
    resize, as long as the callback is installed. *)
Lemma render_loop_viewports (k : nat) : forall w fuel cw,
  close_flag w = 0 ->
  fb_callback w = Some (cw, cb_framebuffer_size_callback) ->
  (forall i, (i < k)%nat -> stops E (tick w + i) = false) ->
  stops E (tick w + k) = true ->
  (k + 2 <= fuel)%nat ->
  filter is_viewport (trace (loop fuel w))
  = flat_map (resize_calls E) (seq (tick w) (S k)).
Proof.
  assert (Hframe : forall w cw,
            fb_callback w = Some (cw, cb_framebuffer_size_callback) ->
            filter is_viewport (frame_calls E win shaderProgram VAO w)
            = resize_calls E (tick w)).
  { intros w cw Hcb. unfold frame_calls, input_calls, event_calls,
      resize_calls.
    rewrite Hcb. destruct (_ =? _);
      destruct (resized _) as [[fw fh]|]; reflexivity. }
  induction k as [|k IH]; intros w fuel cw Hc Hcb Hrun Hstop Hf.
  - rewrite Nat.add_0_r in Hstop.
    destruct fuel as [|[|fuel]]; try lia.
    rewrite (render_loop_open _ _ _ _ _ _ Hc).
    rewrite render_loop_closed by (cbn; rewrite Hstop; discriminate).
    cbn [trace fst seq flat_map]. rewrite app_nil_r.
    change (filter is_viewport (?c :: ?l))
      with (filter is_viewport l).
    rewrite filter_app. cbn [filter is_viewport]. rewrite app_nil_r.
    apply (Hframe w cw Hcb).
  - assert (H0 : stops E (tick w) = false).
    { rewrite <- (Nat.add_0_r (tick w)). apply Hrun. lia. }
    destruct fuel as [|fuel]; [lia|].
    rewrite (render_loop_open _ _ _ _ _ _ Hc). cbn [trace fst].
    change (filter is_viewport (?c :: ?l))
      with (filter is_viewport l).
    rewrite filter_app, (Hframe w cw Hcb).
    rewrite (IH (frame_world E w) fuel cw); auto.
    + cbn. now rewrite H0.
    + intros i Hi. cbn. rewrite <- Nat.add_succ_r. apply Hrun. lia.
    + cbn. rewrite <- Nat.add_succ_r. exact Hstop.
    + lia.
Qed.

End LoopEnds.

(** X6: when window and loader are there, the first frame is always
    rendered: the close flag is down when the loop is entered, so even with
    escape held from the start or an immediate close request a run draws
    at least once. *)
Theorem first_frame_is_drawn (E : env) (fuel : nat) :
  created_window E <> NULL ->
  glad_loaded E <> 0 ->
  (1 <= fuel)%nat ->
  (1 <= draws (trace (run E fuel)))%nat.
Proof.
  intros Hw Hg Hf. rewrite (run_ok E fuel Hw Hg _ eq_refl). cbn [trace fst].
  destruct fuel as [|fuel]; [lia|].
  rewrite render_loop_open by reflexivity. cbn [trace fst].
  change (?a ++ (?c :: ?l ++ ?m) ++ ?n) with (a ++ ([c] ++ l ++ m) ++ n).
  rewrite !draws_app, frame_calls_draws. lia.
Qed.

Lemma first_frame_is_drawn_witness :
  (1 <= draws (trace (run env_link_fails 1)))%nat.
Proof.
  apply first_frame_is_drawn; [discriminate | discriminate | apply le_n].
Defined.

(** X7: when window and loader are there and no frame ever sees escape or
    a close request, the program does not end: whatever the fuel, the
    loop is still running and has drawn once per unit of fuel. *)
Theorem run_never_ends_unasked (E : env) (fuel : nat) :
  created_window E <> NULL ->
  glad_loaded E <> 0 ->
  (forall k, stops E k = false) ->
  result (run E fuel) = Running
  /\ draws (trace (run E fuel)) = fuel.
Proof.
  intros Hw Hg Hnever. rewrite (run_ok E fuel Hw Hg _ eq_refl).
  cbn [trace result fst snd].
  destruct (render_loop_runs E (created_window E) (new_program E)
              (gen_VAO E) fuel
              (set_fb_callback (created_window E)
                 cb_framebuffer_size_callback initial_world) eq_refl)
    as (pre & w1 & Hd & _ & _ & Heq).
  { intros i _. apply Hnever. }
  specialize (Heq 0%nat). rewrite Nat.add_0_r in Heq. rewrite Heq.
  cbn [trace result fst snd render_loop out_of_fuel].
  rewrite !draws_app, (startup_draws E Hw Hg), Hd. cbn. split; [reflexivity|lia].
Qed.

Lemma run_never_ends_unasked_witness :
  result (run env_quiet 4) = Running
  /\ draws (trace (run env_quiet 4)) = 4%nat.
Proof.
  apply run_never_ends_unasked; [discriminate | discriminate | reflexivity].
Defined.

(** X8: a run returns from [main] only after a frame that saw escape or a
    close request.  That frame [k] is the first such frame and the last
    frame drawn; the value returned is 0, and the state at the end has the
    close flag up, [k + 1] frames polled and the resize callback still
    installed on the created window. *)
Theorem run_returns_after_first_stop (E : env) (fuel : nat) (s : Z)
    (w' : world) :
  result (run E fuel) = Ret s w' ->
  exists k,
    (k + 2 <= fuel)%nat
    /\ (forall i, (i < k)%nat -> stops E i = false)
    /\ stops E k = true
    /\ draws (trace (run E fuel)) = S k
    /\ s = 0
    /\ close_flag w' = 1
    /\ tick w' = S k
    /\ fb_callback w'
       = Some (created_window E, cb_framebuffer_size_callback).
Proof.
  intros H. destruct (run_returns_ok E fuel s w' H) as [Hw Hg].
  rewrite (run_ok E fuel Hw Hg _ eq_refl) in H |- *.
  cbn [trace result fst snd] in H |- *.
  destruct (result _) as [a w1| |] eqn:Hr; try discriminate.
  inversion H; subst s w1. clear H.
  assert (Hc : close_flag (set_fb_callback (created_window E)
                             cb_framebuffer_size_callback initial_world) = 0)
    by reflexivity.
  destruct (render_loop_returns _ _ _ _ _ _ _ _ Hc Hr)
    as (k & Hk & Hrun & Hstop).
  destruct (render_loop_stops E (created_window E) (new_program E)
              (gen_VAO E) _ _ Hc Hrun Hstop fuel Hk)
    as (w2 & Hr2 & Hc2 & Ht2 & Hd2 & _).
  rewrite Hr in Hr2. inversion Hr2; subst w2.
  exists k. repeat split; auto.
  - rewrite !draws_app, (startup_draws E Hw Hg), Hd2. cbn. lia.
  - rewrite Ht2. cbn. lia.
  - now rewrite (render_loop_callback _ _ _ _ _ _ _ _ Hr).
Qed.

Lemma run_returns_after_first_stop_witness :
  exists k,
    (k + 2 <= 3)%nat
    /\ stops env_escape k = true
    /\ draws (trace (run env_escape 3)) = S k.
Proof.
  destruct (run_returns_after_first_stop env_escape 3 0
              (frame_world env_escape
                 (frame_world env_escape
                    (set_fb_callback 77 cb_framebuffer_size_callback
                                     initial_world)))
              eq_refl)
    as (k & Hk & _ & Hstop & Hd & _).
  exists k. auto.
Defined.

(** X9: when window and loader are there and the loop stops in frame [k],
    the viewport is set once to 800 x 600 by [initWindow] and then once
    for each resize event of the frames 0 to [k], in order, each time to
    (height, width) of the new framebuffer size: the callback is installed
    before the first poll, so no resize goes unanswered. *)
Theorem viewport_follows_resizes (E : env) (fuel k : nat) :
  created_window E <> NULL ->
  glad_loaded E <> 0 ->
  (forall i, (i < k)%nat -> stops E i = false) ->
  stops E k = true ->
  (k + 2 <= fuel)%nat ->
  filter is_viewport (trace (run E fuel))
  = glViewport 0 0 800 600 :: flat_map (resize_calls E) (seq 0 (S k)).
Proof.
  intros Hw Hg Hrun Hstop Hf.
  rewrite (run_ok E fuel Hw Hg _ eq_refl). cbn [trace fst].
  rewrite !filter_app, (startup_viewports E Hw Hg).
  rewrite (render_loop_viewports E _ _ _ k _ fuel (created_window E));
    auto.
  destruct (result _); cbn [filter is_viewport]; now rewrite app_nil_r.
Qed.

Lemma viewport_follows_resizes_witness :
  filter is_viewport (trace (run env_escape 3))
  = glViewport 0 0 800 600
    :: flat_map (resize_calls env_escape) (seq 0 2).
Proof.
  assert (Hw : created_window env_escape <> NULL) by discriminate.
  assert (Hg : glad_loaded env_escape <> 0) by discriminate.
  assert (Hrun : forall i, (i < 1)%nat -> stops env_escape i = false).
  { intros i Hi. assert (i = 0%nat) as -> by lia. reflexivity. }
  exact (viewport_follows_resizes env_escape 3 1 Hw Hg Hrun eq_refl
           (le_n 3)).
Defined.

(** ** Beyond the claims: what the shader statuses change *)

Section ShaderStatus.

Variable E : env.
Variables (compiled linked : Z) (vertex_log program_log : string).

Local Abbreviation E' :=
  (with_shader_status E compiled linked vertex_log program_log).

Lemma render_loop_with_shader_status win shaderProgram VAO fuel : forall w,
  render_loop E' win shaderProgram VAO fuel w
  = render_loop E win shaderProgram VAO fuel w.
Proof.
  induction fuel as [|fuel IH]; intros w; [reflexivity|].
  destruct (Z.eq_dec (close_flag w) 0) as [Hc|Hc].
  - rewrite (render_loop_open E' _ _ _ _ _ Hc).
    rewrite (render_loop_open E _ _ _ _ _ Hc).
    change (frame_world E' w) with (frame_world E w).
    change (frame_calls E' win shaderProgram VAO w)
      with (frame_calls E win shaderProgram VAO w).
    now rewrite IH.
  - now rewrite !render_loop_closed.
Qed.

Lemma startup_with_shader_status (w : world) :
  created_window E <> NULL ->
  glad_loaded E <> 0 ->
  filter (fun c => negb (is_log_call c)) (trace (startup E' w))
  = filter (fun c => negb (is_log_call c)) (trace (startup E w)).
Proof.
  intros Hw Hg. apply Z.eqb_neq in Hw, Hg.
  unfold_startup. rewrite Hw. cbn. rewrite Hg. cbn.
  destruct (compiled =? 0); cbn; destruct (linked =? 0); cbn;
    shader_cases E; reflexivity.
Qed.

End ShaderStatus.

(** X10: the compile status of the vertex shader, the link status and the
    two info logs change nothing but logging.  Two runs whose environments
    differ only in these end the same way, and apart from fetching an info
    log and printing they make the same calls in the same order: a failed
    shader build does not stop or shorten the program. *)
Theorem shader_status_only_changes_logging (E : env) (compiled linked : Z)
    (vertex_log program_log : string) (fuel : nat) :
  result (run (with_shader_status E compiled linked vertex_log program_log)
              fuel)
  = result (run E fuel)
  /\ filter (fun c => negb (is_log_call c))
       (trace (run (with_shader_status E compiled linked vertex_log
                      program_log) fuel))
     = filter (fun c => negb (is_log_call c)) (trace (run E fuel)).
Proof.
  set (E' := with_shader_status E compiled linked vertex_log program_log).
  destruct (Z.eq_dec (created_window E) NULL) as [Hw|Hw].
  { rewrite (run_exits E fuel (or_introl Hw)).
    rewrite (run_exits E' fuel (or_introl Hw)).
    rewrite (initWindow_no_window E _ Hw).
    rewrite (initWindow_no_window E' _ Hw). split; reflexivity. }
  destruct (Z.eq_dec (glad_loaded E) 0) as [Hg|Hg].
  { rewrite (run_exits E fuel (or_intror Hg)).
    rewrite (run_exits E' fuel (or_intror Hg)).
    rewrite (initWindow_no_loader E _ Hw Hg).
    rewrite (initWindow_no_loader E' _ Hw Hg). split; reflexivity. }
  rewrite (run_ok E fuel Hw Hg _ eq_refl).
  rewrite (run_ok E' fuel Hw Hg _ eq_refl).
  cbn [trace result fst snd]. subst E'.
  rewrite render_loop_with_shader_status.
  cbn [created_window new_program gen_VAO with_shader_status].
  split; [reflexivity|].
  rewrite !filter_app.
  now rewrite (startup_with_shader_status E _ _ _ _ _ Hw Hg).
Qed.

(** ** Beyond the claims: the OpenGL state at a draw call *)

Lemma gl_run_app E (t u : list call) (s : gl_state) :
  gl_run E (t ++ u) s = gl_run E u (gl_run E t s).
Proof. apply fold_left_app. Qed.

Lemma states_before_app E (P : call -> bool) (t u : list call) : forall s,
  states_before E P (t ++ u) s
  = states_before E P t s ++ states_before E P u (gl_run E t s).
Proof.
  induction t as [|c t IH]; intros s; [reflexivity|].
  cbn. rewrite IH, app_assoc. reflexivity.
Qed.

Lemma states_before_length E (P : call -> bool) (t : list call) : forall s,
  List.length (states_before E P t s) = List.length (filter P t).
Proof.
  induction t as [|c t IH]; intros s; [reflexivity|].
  cbn. rewrite length_app, IH. destruct (P c); reflexivity.
Qed.

Lemma states_before_none E (P : call -> bool) (t : list call)
    (s : gl_state) :
  filter P t = [] -> states_before E P t s = [].
Proof.
  intros H. apply length_zero_iff_nil.
  now rewrite states_before_length, H.
Qed.

(** Calls that draw nothing and leave the modelled state alone. *)
Lemma inert_calls E (t : list call) :
  Forall (fun c => is_draw c = false /\ forall s, gl_step E c s = s) t ->
  forall s, states_before E is_draw t s = [] /\ gl_run E t s = s.
Proof.
  induction 1 as [|c t [Hd Hs] _ IH]; intros s; [split; reflexivity|].
  cbn. rewrite Hd, Hs. apply IH.
Qed.

Section DrawState.

Variable E : env.
Hypothesis Hwindow : created_window E <> NULL.
Hypothesis Hloader : glad_loaded E <> 0.
Hypothesis Hvao : gen_VAO E <> 0.
Hypothesis Hvbo : gen_VBO E <> 0.
Hypothesis Hebo : gen_EBO E <> 0.
Hypothesis Hbuffers : gen_VBO E <> gen_EBO E.
Hypothesis Hprogram : new_program E <> 0.

(** Runs the calls of a literal trace one at a time, deciding each test
    on a name as soon as it comes up. *)
Ltac gl_eval Hs facts :=
  repeat (
    lazymatch type of Hs with
    | context [fold_left ?f (?c :: ?t) ?s] =>
        let s1 := eval cbn in (gl_step E c s) in
        change (fold_left f (c :: t) s) with (fold_left f t s1) in Hs
    end;
    repeat (progress (cbv beta delta [update bound_vao] in Hs;
                      rewrite ?Z.eqb_refl in Hs; facts Hs;
                      cbn -[fold_left gl_step] in Hs)));
  cbn [fold_left] in Hs.

Lemma startup_loop_ready :
  loop_ready E (gl_run E (trace (startup E initial_world)) gl_initial)
  /\ current_program
       (gl_run E (trace (startup E initial_world)) gl_initial) = 0.
Proof.
  pose proof Hwindow as Hw. pose proof Hloader as Hg.
  pose proof Hvao as H1. pose proof Hvbo as H2. pose proof Hebo as H3.
  pose proof Hbuffers as H4. pose proof Hprogram as H5.
  apply Z.eqb_neq in Hw, Hg, H1, H2, H3, H4, H5.
  remember (trace (startup E initial_world)) as t eqn:Ht.
  revert Ht. unfold_startup. rewrite Hw. cbn. rewrite Hg. cbn.
  destruct (vertex_compile_status E =? 0); cbn [app];
    destruct (link_status E =? 0) eqn:Hl; cbn [app]; intros ->;
    remember (gl_run E _ gl_initial) as s eqn:Hs;
    unfold gl_run in Hs; cbn [trace fst] in Hs;
    gl_eval Hs ltac:(fun H => rewrite ?H1, ?H2, ?H3, ?H4, ?H5, ?Hl in H);
    subst s; unfold loop_ready, geometry_ready;
    repeat (progress (cbv beta delta [update];
                      rewrite ?Z.eqb_refl, ?H4, ?Hl; cbn));
    repeat split; reflexivity.
Qed.

(** The rendering steps of a frame, from a state as the loop keeps it. *)
Lemma render_steps_draw_ready (win : window) (s : gl_state) :
  loop_ready E s ->
  (exists s', states_before E is_draw
                (render_steps win (new_program E) (gen_VAO E)) s = [s']
              /\ draw_ready E s')
  /\ loop_ready E (gl_run E (render_steps win (new_program E) (gen_VAO E)) s).
Proof.
  intros (Hgeo & Hlinked & Hnone).
  pose proof Hprogram as H5. apply Z.eqb_neq in H5.
  unfold render_steps, gl_run, loop_ready, draw_ready, program_at_draw.
  cbn [states_before fold_left is_draw app gl_step].
  rewrite H5, Hlinked.
  destruct (link_status E =? 0) eqn:Hl; cbn [negb].
  - specialize (Hnone eq_refl). split.
    + eexists. split; [reflexivity|]. repeat split; try apply Hgeo.
      exact Hnone.
    + repeat split; try apply Hgeo; auto.
  - split.
    + eexists. split; [reflexivity|]. repeat split; apply Hgeo.
    + repeat split; try apply Hgeo; auto. discriminate.
Qed.

Lemma loop_trace_draw_ready (win : window) (t : list call) :
  loop_trace win (new_program E) (gen_VAO E) t ->
  forall s,
    loop_ready E s ->
    Forall (draw_ready E) (states_before E is_draw t s)
    /\ loop_ready E (gl_run E t s).
Proof.
  induction 1 as [| |it rest Hit _ IH]; intros s Hs.
  - split; [constructor | exact Hs].
  - split; [constructor | exact Hs].
  - destruct Hit as [inp evs Hinp Hevs].
    change (glfwWindowShouldClose win :: ?l) with
      ([glfwWindowShouldClose win] ++ l).
    rewrite <- !app_assoc.
    rewrite !gl_run_app, !states_before_app, ?gl_run_app.
    change (gl_run E [glfwWindowShouldClose win] s) with s.
    change (states_before E is_draw [glfwWindowShouldClose win] s)
      with (@nil gl_state).
    destruct (inert_calls E inp) with (s := s) as [Hi1 Hi2].
    { destruct Hinp; repeat constructor. }
    rewrite Hi1, Hi2.
    destruct (render_steps_draw_ready win s Hs)
      as [(s' & Hdraw & Hready) Hs1].
    set (s1 := gl_run E (render_steps win (new_program E) (gen_VAO E)) s)
      in *.
    destruct (inert_calls E evs) with (s := s1) as [He1 He2].
    { destruct Hevs as [cbs Hcbs]. constructor; [split; reflexivity|].
      eapply Forall_impl; [|exact Hcbs].
      intros c Hc. destruct c; try discriminate. split; reflexivity. }
    rewrite He1, He2, Hdraw.
    destruct (IH s1 Hs1) as [IH1 IH2].
    split; [|exact IH2].
    cbn [app]. constructor; [exact Hready | exact IH1].
Qed.

Lemma run_draw_ready (fuel : nat) :
  Forall (draw_ready E)
         (states_before E is_draw (trace (run E fuel)) gl_initial).
Proof.
  rewrite (run_ok E fuel Hwindow Hloader _ eq_refl). cbn [trace fst].
  rewrite !states_before_app.
  rewrite (states_before_none E is_draw (trace (startup E initial_world)));
    [|apply length_zero_iff_nil, (startup_draws E Hwindow Hloader)].
  cbn [app].
  destruct startup_loop_ready as [Hstart _].
  destruct (loop_trace_draw_ready (created_window E) _
              (render_loop_shape E (created_window E) (new_program E)
                 (gen_VAO E) fuel
                 (set_fb_callback (created_window E)
                    cb_framebuffer_size_callback initial_world))
              _ Hstart) as [Hd _].
  apply Forall_app. split; [exact Hd|].
  destruct (result _); constructor.
Qed.

End DrawState.

(** X11: when window and loader are there, the names of the vertex array,
    the two buffers and the program are not 0 and the two buffers differ,
    every [glDrawElements] of a run is issued in a state where the vertex
    array of startup is bound, that vertex array has the element buffer
    attached and attribute 0 enabled and reading 3 floats at stride 12
    from the vertex buffer, the element buffer holds [indices] and the
    vertex buffer holds [vertices], and the polygon mode is [GL_LINE] on
    both faces.  The program in use is the program of startup when it
    linked; when linking failed, [glUseProgram] is refused each frame and
    every draw is issued with no program in use.  There is one such state
    per draw call. *)
Theorem every_draw_is_set_up (E : env) (fuel : nat) :
  created_window E <> NULL ->
  glad_loaded E <> 0 ->
  gen_VAO E <> 0 ->
  gen_VBO E <> 0 ->
  gen_EBO E <> 0 ->
  gen_VBO E <> gen_EBO E ->
  new_program E <> 0 ->
  Forall (draw_ready E)
         (states_before E is_draw (trace (run E fuel)) gl_initial)
  /\ List.length (states_before E is_draw (trace (run E fuel)) gl_initial)
     = draws (trace (run E fuel))
  /\ (link_status E <> 0 -> program_at_draw E = new_program E)
  /\ (link_status E = 0 -> program_at_draw E = 0).
Proof.
  intros Hw Hg H1 H2 H3 H4 H5. split; [|split; [|split]].
  - apply run_draw_ready; assumption.
  - apply states_before_length.
  - intros Hl. apply Z.eqb_neq in Hl. unfold program_at_draw.
    now rewrite Hl.
  - intros Hl. unfold program_at_draw. now rewrite Hl.
Qed.

(** [env_escape] links and draws twice with program 3 in use;
    [env_link_fails] does not link and draws once with no program. *)
Lemma every_draw_is_set_up_witness :
  (Forall (draw_ready env_escape)
          (states_before env_escape is_draw (trace (run env_escape 3))
                         gl_initial)
   /\ List.length (states_before env_escape is_draw
                     (trace (run env_escape 3)) gl_initial) = 2%nat
   /\ program_at_draw env_escape = 3)
  /\ (Forall (draw_ready env_link_fails)
             (states_before env_link_fails is_draw
                (trace (run env_link_fails 3)) gl_initial)
      /\ List.length (states_before env_link_fails is_draw
                        (trace (run env_link_fails 3)) gl_initial) = 1%nat
      /\ program_at_draw env_link_fails = 0).
Proof.
  split.
  - destruct (every_draw_is_set_up env_escape 3) as (Hd & Hn & Hp & _);
      try discriminate.
    split; [exact Hd | split; [exact Hn | apply Hp; discriminate]].
  - destruct (every_draw_is_set_up env_link_fails 3) as (Hd & Hn & _ & Hp);
      try discriminate.
    split; [exact Hd | split; [exact Hn | apply Hp; reflexivity]].
Defined.
